(** * NuGateway: Modbus RTU / BMS transport and decoding layer

    Shallow embedding of [src/modbus_reader.py] (class [ModbusReader]) and of
    the sibling reader in [src/nubank_complete.py], with the properties the
    design document states about them.

    Conventions of the embedding:
    - a Python [int] is a [Z]; the elements of a [bytes] object or of a
      [List[int]] built from one are [Z]s between 0 and 255;
    - list positions and lengths are [nat]s: every index the code computes
      comes from a [range] that starts at a non-negative value; the three
      negative-index forms the code uses ([x[-1]], [x[:-1]], [x[-2:]]) are
      written out with [last], [take] and [drop];
    - a Python [float] is a binary64 [PrimFloat.float]; [round] is modelled
      after CPython's correctly rounded implementation;
    - a [Dict[str, Any]] is a [gmap string pyval];
    - a raised exception is the [Raise] constructor of [result]; the serial
      line is explicit state threaded through the bus monad [M]. *)

From Stdlib Require Import ZArith Lia Floats.
From stdpp Require Import gmap strings list fin_maps.

Open Scope Z_scope.

(** ** Python values and exceptions *)

Inductive pyval :=
| VInt (z : Z)
| VFloat (f : float)
| VBool (b : bool)
| VStr (s : string).

Inductive pyexn := IndexError | ValueError | OverflowError | SerialException.

Inductive result (A : Type) :=
| Ok (a : A)
| Raise (e : pyexn).
Arguments Ok {A} a.
Arguments Raise {A} e.

Definition rbind {A B} (r : result A) (k : A -> result B) : result B :=
  match r with
  | Ok a => k a
  | Raise e => Raise e
  end.

Notation "'letr' x ':=' r 'in' k" := (rbind r (fun x => k))
  (at level 10, x name, r at level 100, k at level 200).

(** [buf[i]] for [i >= 0]. *)
Definition getitem (buf : list Z) (i : nat) : result Z :=
  match buf !! i with
  | Some b => Ok b
  | None => Raise IndexError
  end.

(** [buf[-1]]. *)
Definition getlast (buf : list Z) : result Z :=
  match last buf with
  | Some b => Ok b
  | None => Raise IndexError
  end.

(** [buf[:-1]]. *)
Definition but_last (buf : list Z) : list Z := take (length buf - 1) buf.

(** [sum(buf)] over integers. *)
Definition sum_bytes (buf : list Z) : Z := fold_left Z.add buf 0.

Abbreviation dict := (gmap string pyval).

(** ** Floating point, as CPython computes it *)

Module PyFloat.

(** [float(z)]: the binary64 nearest to the integer [z]. *)
Definition of_int (z : Z) : float :=
  SF2Prim (binary_normalize prec emax z 0 false).

(** Nearest integer, ties to even, of [num / den] for [0 <= num], [0 < den]. *)
Definition div_half_even (num den : Z) : Z :=
  let q := num / den in
  let r := num mod den in
  if 2 * r <? den then q
  else if den <? 2 * r then q + 1
  else if Z.even q then q else q + 1.

(** Nearest integer, ties to even, of the exact value [m * 2^e * 10^nd]. *)
Definition scaled_half_even (m : positive) (e : Z) (nd : nat) : Z :=
  let num := Z.pos m * 10 ^ Z.of_nat nd in
  if 0 <=? e then num * 2 ^ e else div_half_even num (2 ^ (- e)).

(** [round(x, nd)] for [nd >= 0]: the decimal with [nd] places nearest to
    the exact value of [x] (ties to even), converted back to the nearest
    binary64. Zeros, infinities and NaN round to themselves. *)
Definition round_nd (x : float) (nd : nat) : float :=
  match Prim2SF x with
  | S754_finite s m e =>
      match scaled_half_even m e nd with
      | Z.pos n =>
          SF2Prim (SFdiv prec emax (S754_finite s n 0)
                     (S754_finite false (Z.to_pos (10 ^ Z.of_nat nd)) 0))
      | _ => SF2Prim (S754_zero s)
      end
  | _ => x
  end.

(** [int(round(x))]: nearest integer, ties to even; [round] raises
    [ValueError] on NaN and [OverflowError] on an infinity. *)
Definition round_int (x : float) : result Z :=
  match Prim2SF x with
  | S754_zero _ => Ok 0
  | S754_finite s m e =>
      let n := scaled_half_even m e 0 in
      Ok (if s then - n else n)
  | S754_infinity _ => Raise OverflowError
  | S754_nan => Raise ValueError
  end.

(** [sum(xs)] over floats: left to right, from the integer [0], each
    addition rounded (CPython before 3.12; later versions compensate the
    rounding errors, which changes nothing when the sum is exact). *)
Definition sum (xs : list float) : float :=
  fold_left PrimFloat.add xs (of_int 0).

(** [struct.unpack('>f', ...)]: the binary32 with bit pattern [w]
    (sign, 8 exponent bits, 23 fraction bits), widened to binary64, which
    is exact. *)
Definition of_binary32 (w : Z) : float :=
  let s := Z.testbit w 31 in
  let ex := Z.land (Z.shiftr w 23) 0xFF in
  let frac := Z.land w 0x7FFFFF in
  if ex =? 255 then
    if frac =? 0 then (if s then neg_infinity else infinity) else nan
  else
    let m := if ex =? 0 then frac else frac + 2 ^ 23 in
    let e := if ex =? 0 then -149 else ex - 150 in
    SF2Prim (binary_normalize prec emax (if s then - m else m) e s).

End PyFloat.

(** ** CRC engine *)

(** The inner [for _ in range(8)] loop of [calculate_crc]. *)
Fixpoint crc_shift (n : nat) (crc : Z) : Z :=
  match n with
  | O => crc
  | S n' =>
      crc_shift n'
        (if negb (Z.land crc 0x0001 =? 0)
         then Z.lxor (Z.shiftr crc 1) 0xA001
         else Z.shiftr crc 1)
  end.

Definition crc_update (crc byte : Z) : Z := crc_shift 8 (Z.lxor crc byte).

Definition calculate_crc (data : list Z) : list Z :=
  let crc := fold_left crc_update data 0xFFFF in
  [Z.land crc 0xFF; Z.land (Z.shiftr crc 8) 0xFF].

Definition verify_crc (data : list Z) : bool :=
  if (length data <? 3)%nat then false
  else
    let received_crc := drop (length data - 2) data in
    let calculated_crc := calculate_crc (take (length data - 2) data) in
    bool_decide (received_crc = calculated_crc).

(** Bit [k] of the byte at position [i] inverted. *)
Definition flip_bit (l : list Z) (i k : nat) : list Z :=
  alter (fun b => Z.lxor b (2 ^ Z.of_nat k)) i l.

(** ** The serial line

    The transport is the external collaborator. A device is a state [Dev]
    with a reply function: for every frame written it yields its next state
    and the bursts of bytes that the following [read] calls return, one
    burst per call (an empty burst is a read that times out). *)

Record bus (Dev : Type) := Bus {
  device : Dev;
  is_open : bool;
  tx_log : list (list Z);
  rx_pending : list (list Z)
}.
Arguments Bus {Dev}.
Arguments device {Dev}.
Arguments is_open {Dev}.
Arguments tx_log {Dev}.
Arguments rx_pending {Dev}.

(** State and exception monad: an exception keeps the state reached. *)
Definition ST (S A : Type) : Type := S -> result A * S.

Definition ret {S A} (a : A) : ST S A := fun s => (Ok a, s).

Definition bind {S A B} (c : ST S A) (k : A -> ST S B) : ST S B :=
  fun s =>
    match c s with
    | (Ok a, s') => k a s'
    | (Raise e, s') => (Raise e, s')
    end.

Definition lift {S A} (r : result A) : ST S A := fun s => (r, s).

(** [try: c except Exception: h]. *)
Definition try_except {S A} (c : ST S A) (h : ST S A) : ST S A :=
  fun s =>
    match c s with
    | (Ok a, s') => (Ok a, s')
    | (Raise _, s') => h s'
    end.

Notation "'let*' x ':=' c 'in' k" := (bind c (fun x => k))
  (at level 10, x name, c at level 100, k at level 200).
Notation "c ';;' k" := (bind c (fun _ => k))
  (at level 100, k at level 200, right associativity).

Inductive rr_failure :=
| PortClosed
| NoResponse
| DeviceException (code : Z)
| FrameCorrupt
| FrameTooShort
| ReadError.

(** What [read_registers] returns: the register list, or [None]; the
    failure records which message the code logs before [return None]. *)
Inductive rr_result :=
| RRNone (why : rr_failure)
| RRRegs (registers : list Z).

(** The [for i in range(0, len(data_bytes), 2)] loop of [read_registers]. *)
Fixpoint pair_registers (data_bytes : list Z) : list Z :=
  match data_bytes with
  | hi :: lo :: rest => Z.lor (Z.shiftl hi 8) lo :: pair_registers rest
  | _ => []
  end.

(** The decoding policy of [read_registers], from [if not response] on. *)
Definition parse_response (response : list Z) : rr_result :=
  if bool_decide (response = []) then RRNone NoResponse
  else if (2 <=? length response)%nat
          && negb (Z.land (default 0 (response !! 1%nat)) 0x80 =? 0)
  then RRNone (DeviceException
                 (if (2 <? length response)%nat
                  then default 0 (response !! 2%nat) else 0))
  else if negb (verify_crc response) then RRNone FrameCorrupt
  else if (length response <? 5)%nat then RRNone FrameTooShort
  else
    let byte_count := default 0 (response !! 2%nat) in
    let data_bytes := take (Z.to_nat byte_count) (drop 3 response) in
    RRRegs (pair_registers data_bytes).

(** The request frame of [read_registers], CRC included. *)
Definition build_request (slave_id start_address : Z) (count : nat)
    (function_code : Z) : list Z :=
  let request :=
    [slave_id; function_code;
     Z.land (Z.shiftr start_address 8) 0xFF; Z.land start_address 0xFF;
     Z.land (Z.shiftr (Z.of_nat count) 8) 0xFF; Z.land (Z.of_nat count) 0xFF] in
  request ++ calculate_crc request.

Section Transport.
Context {Dev : Type}.
Variable respond : Dev -> list Z -> Dev * list (list Z).

Abbreviation M := (ST (bus Dev)).

(** [serial.reset_input_buffer()]: bytes of an earlier exchange are lost. *)
Definition reset_input_buffer : M unit := fun b =>
  if is_open b
  then (Ok tt, Bus (device b) true (tx_log b) [])
  else (Raise SerialException, b).

Definition reset_output_buffer : M unit := fun b =>
  if is_open b then (Ok tt, b) else (Raise SerialException, b).

(** [serial.write(frame)]. *)
Definition serial_write (frame : list Z) : M unit := fun b =>
  if is_open b
  then let '(dev', bursts) := respond (device b) frame in
       (Ok tt, Bus dev' true (tx_log b ++ [frame]) (rx_pending b ++ bursts))
  else (Raise SerialException, b).

(** [serial.read(size)]: at most [size] bytes of the next burst. *)
Definition serial_read (size : nat) : M (list Z) := fun b =>
  if is_open b
  then match rx_pending b with
       | [] => (Ok [], b)
       | burst :: rest =>
           (Ok (take size burst),
            Bus (device b) true (tx_log b)
              (if bool_decide (drop size burst = []) then rest
               else drop size burst :: rest))
       end
  else (Raise SerialException, b).

(** [serial.read(serial.in_waiting or 255)]: the next burst. *)
Definition serial_read_waiting : M (list Z) := fun b =>
  if is_open b
  then match rx_pending b with
       | [] => (Ok [], b)
       | burst :: rest => (Ok burst, Bus (device b) true (tx_log b) rest)
       end
  else (Raise SerialException, b).

(** *** Standard register reader *)

Definition read_registers (slave_id start_address : Z) (count : nat)
    (function_code : Z) : M rr_result := fun b =>
  if negb (is_open b) then (Ok (RRNone PortClosed), b)
  else
    let request := build_request slave_id start_address count function_code in
    try_except
      (reset_input_buffer ;;
       reset_output_buffer ;;
       serial_write request ;;
       let expected_length := (3 + count * 2 + 2)%nat in
       let* response := serial_read expected_length in
       ret (parse_response response))
      (ret (RRNone ReadError)) b.

End Transport.

(** ** BMS payload decoding (command 0x00)

    The block under [if rx and len(rx) > 20] of [read_bms_data], which
    [read_bms_full] of [nubank_complete.py] repeats line for line. The local
    dictionary is the state of [ST dict], so that an exception leaves the
    keys written before it. *)

Definition u16_le (buf : list Z) (i : nat) : result Z :=
  letr lo := getitem buf i in
  letr hi := getitem buf (i + 1) in
  Ok (Z.lor lo (Z.shiftl hi 8)).

Definition i16_le (buf : list Z) (i : nat) : result Z :=
  letr v := u16_le buf i in
  Ok (if 32767 <? v then v - 65536 else v).

(** [round(v / 1000.0, 3)]. *)
Definition millis (v : Z) : float :=
  PyFloat.round_nd (PyFloat.of_int v / PyFloat.of_int 1000) 3.

(** [round(v / 100.0, 2)]. *)
Definition centis (v : Z) : float :=
  PyFloat.round_nd (PyFloat.of_int v / PyFloat.of_int 100) 2.

(** [[round(u16_le(d, i * 2) / 1000.0, 3) for i in range(series_count)]],
    from index [i] on, [n] cells to go. *)
Fixpoint decode_cells_from (d : list Z) (i n : nat) : result (list float) :=
  match n with
  | O => Ok []
  | S n' =>
      letr v := u16_le d (i * 2) in
      letr rest := decode_cells_from d (S i) n' in
      Ok (millis v :: rest)
  end.

Definition decode_cells (d : list Z) (series_count : nat) : result (list float) :=
  decode_cells_from d 0 series_count.

(** [cells[k] if len(cells) > k else 0.0]. *)
Definition cell_or_zero (cells : list float) (k : nat) : pyval :=
  VFloat (default 0%float (cells !! k)).

Definition scan_start (series_count : nat) : nat :=
  Nat.max (2 * series_count) 8.

(** The zero-padding loop, at index [i] with [rest = d[i:]]. *)
Fixpoint skip_zero_padding (rest : list Z) (i zero_run base_start : nat) : nat :=
  match rest with
  | [] => base_start
  | b :: rest' =>
      if b =? 0 then skip_zero_padding rest' (S i) (S zero_run) base_start
      else if (16 <=? zero_run)%nat then i
      else skip_zero_padding rest' (S i) 0%nat base_start
  end.

Definition base_start_of (d : list Z) (series_count : nat) : nat :=
  let start := scan_start series_count in
  skip_zero_padding (drop start d) start 0%nat start.

Definition in_window (v_low v_high val : Z) : bool :=
  (v_low <=? val) && (val <=? v_high).

(** The marker loop [for i in range(base_start, len(d) - 8)], at index [i]
    with [n] iterations to go. *)
Fixpoint find_pack_idx (d : list Z) (v_low v_high : Z) (i n : nat)
  : result (option nat) :=
  match n with
  | O => Ok None
  | S n' =>
      letr val := u16_le d i in
      if in_window v_low v_high val then Ok (Some i)
      else find_pack_idx d v_low v_high (S i) n'
  end.

(** [int(round(total_v * 100))] with [total_v = sum(cells)]. *)
Definition v_guess_of (cells : list float) : result Z :=
  PyFloat.round_int (PyFloat.sum cells * PyFloat.of_int 100).

(** Step 2 of the block: [pack_idx], [None] when no offset matches. *)
Definition locate_pack (d : list Z) (series_count : nat) (cells : list float)
  : result (option nat) :=
  letr v_guess := v_guess_of cells in
  let v_low := v_guess - 12 in
  let v_high := v_guess + 12 in
  let base_start := base_start_of d series_count in
  find_pack_idx d v_low v_high base_start (length d - 8 - base_start).

Record pack_summary := PackSummary {
  vpack : float;
  ipack : float;
  soc : Z;
  soh : Z
}.

(** [d[i] if i < len(d) else 255]. *)
Definition byte_or_255 (d : list Z) (i : nat) : Z :=
  match d !! i with
  | Some b => b
  | None => 255
  end.

(** [cand if 0 <= cand <= 100 else 0]. *)
Definition percent_or_zero (cand : Z) : Z :=
  if (0 <=? cand) && (cand <=? 100) then cand else 0.

Definition pack_fields (d : list Z) (cells : list float) (pack_idx : option nat)
  : result pack_summary :=
  match pack_idx with
  | None =>
      Ok (PackSummary (PyFloat.round_nd (PyFloat.sum cells) 2) 0%float 0 0)
  | Some p =>
      letr v := u16_le d p in
      letr i := i16_le d (p + 2) in
      let cand_soc := byte_or_255 d (p + 6) in
      let cand_soh := byte_or_255 d (p + 7) in
      Ok (PackSummary (centis v) (centis i)
            (percent_or_zero cand_soc) (percent_or_zero cand_soh))
  end.

(** [data[k] = v]. *)
Definition set_item (k : string) (v : pyval) : ST dict unit :=
  fun data => (Ok tt, <[k := v]> data).

Definition decode_realtime (d : list Z) (series_count : nat) : ST dict unit :=
  let* cells := lift (decode_cells d series_count) in
  set_item "bms_cell_1_voltage" (cell_or_zero cells 0) ;;
  set_item "bms_cell_2_voltage" (cell_or_zero cells 1) ;;
  set_item "bms_cell_3_voltage" (cell_or_zero cells 2) ;;
  set_item "bms_cell_4_voltage" (cell_or_zero cells 3) ;;
  let* pack_idx := lift (locate_pack d series_count cells) in
  let* pack := lift (pack_fields d cells pack_idx) in
  set_item "bms_battery_voltage" (VFloat (vpack pack)) ;;
  set_item "bms_battery_current" (VFloat (ipack pack)) ;;
  set_item "bms_battery_soc" (VInt (soc pack)) ;;
  set_item "bms_battery_soh" (VInt (soh pack)) ;;
  set_item "bms_battery_power"
    (VFloat (PyFloat.round_nd (vpack pack * ipack pack) 2)).

(** [rx[6:-1][1:]]: the payload of a command-0x00 reply, metadata byte
    stripped. *)
Definition realtime_payload (rx : list Z) : list Z :=
  drop 1 (drop 6 (but_last rx)).

(** The cell-count block after [bms_send(0x27)]. *)
Definition cell_count (rx : option (list Z)) : result nat :=
  match rx with
  | Some rx =>
      if (6 <? length rx)%nat then
        let d := drop 6 (but_last rx) in
        letr c := getlast d in
        Ok (if (1 <=? c) && (c <=? 24) then Z.to_nat c else 4%nat)
      else Ok 4%nat
  | None => Ok 4%nat
  end.

(** The BMS request frame of [bms_send], checksum included. *)
Definition bms_frame (cmd rw : Z) (data : list Z) : list Z :=
  let frame := [0x3D; 0x01; 0x02; cmd; rw; 0x00; Z.of_nat (length data)] ++ data in
  frame ++ [Z.land (sum_bytes frame) 0xFF].

(** [(sum(rx[:-1]) & 0xFF) == rx[-1]], for a non-empty [rx]. *)
Definition checksum_ok (rx : list Z) : bool :=
  Z.land (sum_bytes (but_last rx)) 0xFF =? default 0 (last rx).

(** [if reg: ... reg[0]]. *)
Definition first_reg (reg : rr_result) : option Z :=
  match reg with
  | RRRegs (r :: _) => Some r
  | _ => None
  end.

(** [if reg and len(reg) >= 2: ... reg[0], reg[1]]. *)
Definition two_regs (reg : rr_result) : option (Z * Z) :=
  match reg with
  | RRRegs (r0 :: r1 :: _) => Some (r0, r1)
  | _ => None
  end.

(** [raw - 0x10000 if raw > 0x7FFF else raw]. *)
Definition signed16 (raw : Z) : Z :=
  if 0x7FFF <? raw then raw - 0x10000 else raw.

(** [if kv in data and ki in data: data[kp] = round(data[kv] * data[ki], 2)]. *)
Definition derive_power (kv ki kp : string) (data : dict) : dict :=
  match data !! kv, data !! ki with
  | Some (VFloat v), Some (VFloat i) =>
      <[kp := VFloat (PyFloat.round_nd (v * i) 2)]> data
  | _, _ => data
  end.

(** [round(struct.unpack('>f', struct.pack('>HH', r0, r1))[0], 1)]. *)
Definition env_value (r0 r1 : Z) : float :=
  PyFloat.round_nd (PyFloat.of_binary32 (Z.lor (Z.shiftl r0 16) r1)) 1.

(** [data if data else None]. *)
Definition nonempty (data : dict) : option dict :=
  if decide (data = ∅) then None else Some data.

(** [if x_data: results.update(x_data)]. *)
Definition update (results : dict) (x_data : option dict) : dict :=
  match x_data with
  | Some x => if decide (x = ∅) then results else x ∪ results
  | None => results
  end.

Section Devices.
Context {Dev : Type}.
Variable respond : Dev -> list Z -> Dev * list (list Z).

Abbreviation B := (ST (bus Dev)).

(** *** BMS protocol codec *)

(** The [for _ in range(3)] drain loop of [bms_send]. *)
Fixpoint drain (n : nat) (rx : list Z) : B (list Z) :=
  match n with
  | O => ret rx
  | S n' =>
      let* extra := serial_read_waiting in
      if bool_decide (extra = []) then ret rx
      else drain n' (rx ++ extra)
  end.

Definition bms_send (cmd rw : Z) (data : list Z) : B (option (list Z)) :=
  reset_input_buffer ;;
  reset_output_buffer ;;
  serial_write respond (bms_frame cmd rw data) ;;
  let* rx := serial_read_waiting in
  let* rx := drain 3 rx in
  if bool_decide (rx = []) then ret None
  else if negb (checksum_ok rx) then ret None
  else ret (Some rx).

(** The bus and the local dictionary of a BMS read. *)
Definition on_bus {A} (c : B A) : ST (bus Dev * dict) A :=
  fun s =>
    let '(r, b') := c (fst s) in (r, (b', snd s)).

Definition on_data {A} (c : ST dict A) : ST (bus Dev * dict) A :=
  fun s =>
    let '(r, data') := c (snd s) in (r, (fst s, data')).

(** One iteration of the MOS-status loop. *)
Definition mos_status (cmd : Z) (key : string) : ST (bus Dev * dict) unit :=
  let* rx := on_bus (bms_send cmd 0x01 []) in
  match rx with
  | Some rx =>
      if (8 <=? length rx)%nat then
        let state := if default 0 (rx !! 7%nat) =? 1 then "ON" else "OFF" in
        on_data (set_item key (VStr state))
      else on_data (set_item key (VStr "UNKNOWN"))
  | None => on_data (set_item key (VStr "UNKNOWN"))
  end.

(** The body of the [try] of [read_bms_data] (and of [read_bms_full]). *)
Definition bms_body : ST (bus Dev * dict) unit :=
  let* rx := on_bus (bms_send 0x27 0x01 []) in
  let* series_count := lift (cell_count rx) in
  let* rx := on_bus (bms_send 0x00 0x01 []) in
  match rx with
  | Some rx =>
      if (20 <? length rx)%nat
      then on_data (decode_realtime (realtime_payload rx) series_count)
      else ret tt
  | None => ret tt
  end ;;
  mos_status 0x2D "bms_discharge_mos_status" ;;
  mos_status 0x2E "bms_charge_mos_status".

(** [modbus_reader.py]: [return data], or [None] from the [except]. *)
Definition read_bms_data : B (option dict) := fun b =>
  match bms_body (b, ∅) with
  | (Ok _, (b', data)) => (Ok (Some data), b')
  | (Raise _, (b', _)) => (Ok None, b')
  end.

(** [nubank_complete.py]: [return bms_data] after the [try], whatever
    happened in it. *)
Definition read_bms_full : B dict := fun b =>
  match bms_body (b, ∅) with
  | (_, (b', data)) => (Ok data, b')
  end.

(** *** Device decoders *)

Definition read_mppt_data : B (option dict) :=
  let slave_id := 0x01 in
  let data : dict := ∅ in
  let* pv_voltage_reg := read_registers respond slave_id 0x304E 1 0x04 in
  let data :=
    match first_reg pv_voltage_reg with
    | Some r => <["mppt_pv_voltage" := VFloat (centis r)]> data
    | None => data
    end in
  let* pv_current_reg := read_registers respond slave_id 0x304F 1 0x04 in
  let data :=
    match first_reg pv_current_reg with
    | Some r => <["mppt_pv_current" := VFloat (centis r)]> data
    | None => data
    end in
  let* battery_soc_reg := read_registers respond slave_id 0x3045 1 0x04 in
  let data :=
    match first_reg battery_soc_reg with
    | Some r => <["mppt_battery_soc" := VInt r]> data
    | None => data
    end in
  let* battery_voltage_reg := read_registers respond slave_id 0x3046 1 0x04 in
  let data :=
    match first_reg battery_voltage_reg with
    | Some r => <["mppt_battery_voltage" := VFloat (centis r)]> data
    | None => data
    end in
  let* battery_current_reg := read_registers respond slave_id 0x3047 1 0x04 in
  let data :=
    match first_reg battery_current_reg with
    | Some raw_current =>
        <["mppt_battery_current" := VFloat (centis (signed16 raw_current))]> data
    | None => data
    end in
  let data :=
    derive_power "mppt_pv_voltage" "mppt_pv_current" "mppt_pv_power" data in
  let data :=
    derive_power "mppt_battery_voltage" "mppt_battery_current"
      "mppt_battery_power" data in
  ret (nonempty data).

Definition read_env_data : B (option dict) :=
  let slave_id := 0x7B in
  let data : dict := ∅ in
  let* co2_reg := read_registers respond slave_id 0x0008 2 0x03 in
  let data :=
    match two_regs co2_reg with
    | Some (r0, r1) => <["env_co2" := VFloat (env_value r0 r1)]> data
    | None => data
    end in
  let* temp_reg := read_registers respond slave_id 0x000E 2 0x03 in
  let data :=
    match two_regs temp_reg with
    | Some (r0, r1) => <["env_temperature" := VFloat (env_value r0 r1)]> data
    | None => data
    end in
  let* hum_reg := read_registers respond slave_id 0x0010 2 0x03 in
  let data :=
    match two_regs hum_reg with
    | Some (r0, r1) => <["env_humidity" := VFloat (env_value r0 r1)]> data
    | None => data
    end in
  ret (nonempty data).

Definition read_ldr_data : B (option dict) :=
  let slave_id := 0x04 in
  let data : dict := ∅ in
  let* ldr_reg := read_registers respond slave_id 0x0000 2 0x03 in
  let data :=
    match two_regs ldr_reg with
    | Some (r0, r1) => <["ldr_lux" := VInt (Z.lor (Z.shiftl r0 16) r1)]> data
    | None => data
    end in
  ret (nonempty data).

Definition read_pir_data : B (option dict) :=
  let slave_id := 0x02 in
  let data : dict := ∅ in
  let* pir_reg := read_registers respond slave_id 0x0000 1 0x03 in
  let data :=
    match first_reg pir_reg with
    | Some r => <["pir_motion_detected" := VBool (negb (r =? 0))]> data
    | None => data
    end in
  ret (nonempty data).

(** *** Poll orchestrator *)

Definition read_all_devices : B dict :=
  let results : dict := ∅ in
  let* mppt_data := read_mppt_data in
  let results := update results mppt_data in
  let* env_data := read_env_data in
  let results := update results env_data in
  let* ldr_data := read_ldr_data in
  let results := update results ldr_data in
  let* bms_data := read_bms_data in
  let results := update results bms_data in
  let* pir_data := read_pir_data in
  let results := update results pir_data in
  ret results.

End Devices.

(** ** A scripted device

    The replies are fixed in advance, one list of bursts per frame written;
    past the end of the script the device stays silent. *)

Definition scripted (script : list (list (list Z))) (frame : list Z)
  : list (list (list Z)) * list (list Z) :=
  match script with
  | [] => ([], [])
  | bursts :: script' => (script', bursts)
  end.

Definition fresh_bus (script : list (list (list Z))) : bus (list (list (list Z))) :=
  Bus script true [] [].

(** A well-formed BMS reply around [body]: the additive checksum appended. *)
Definition with_checksum (body : list Z) : list Z :=
  body ++ [Z.land (sum_bytes body) 0xFF].

(** A well-formed Modbus reply around [body]: the CRC appended. *)
Definition with_crc (body : list Z) : list Z :=
  body ++ calculate_crc body.

(** ** Frames, replies and payloads the properties refer to *)

(** A response long enough to pass the length check, with a CRC that
    verifies, whose byte count (6) claims more than the 2 data bytes sent. *)
Definition overclaiming_response : list Z :=
  with_crc [0x01; 0x04; 0x06; 0x12; 0x34].

(** A reply to a request for 2 registers that carries only one. *)
Definition short_reply_script : list (list (list Z)) :=
  [[with_crc [0x01; 0x04; 0x02; 0x12; 0x34]]].

(** [rest] holds 16 zero bytes in a row from position [j] on. *)
Definition zero_run_at (rest : list Z) (j : nat) : Prop :=
  forall t : nat, (t < 16)%nat -> rest !! (j + t)%nat = Some 0.

(** Four cells of 3.250 V, as the payload carries them. *)
Definition cells_13v : list Z :=
  [0xB2; 0x0C; 0xB2; 0x0C; 0xB2; 0x0C; 0xB2; 0x0C].

(** The pack group: voltage 13.00 V, current -2.00 A, two reserved bytes,
    then the bytes [soc_byte] and [soh_byte], and four more bytes. *)
Definition pack_group (soc_byte soh_byte : Z) : list Z :=
  [0x14; 0x05; 0x38; 0xFF; 0x00; 0x00; soc_byte; soh_byte;
   0x00; 0x00; 0x00; 0x00].

Definition payload_run20 : list Z :=
  cells_13v ++ replicate 20 0 ++ pack_group 87 99.

Definition payload_run10 : list Z :=
  cells_13v ++ replicate 10 0 ++ pack_group 87 99.

(** The cell block followed by 20 zero bytes and nothing else. *)
Definition payload_zero_tail : list Z := cells_13v ++ replicate 20 0.

(** The cells of [cells_13v], decoded: four times 3.25. *)
Definition cells_13v_decoded : list float :=
  [millis 3250; millis 3250; millis 3250; millis 3250].

(** The value [planted] at the unaligned offset 11 of a 4-cell payload. *)
Definition payload_planted (planted : Z) : list Z :=
  cells_13v ++ [0x01; 0x02; 0x03]
  ++ [Z.land planted 0xFF; Z.shiftr planted 8]
  ++ [0x00; 0x00; 0x00; 0x00; 0x50; 0x60; 0x00; 0x00; 0x00; 0x00].

(** The data model of the design document: a percentage, or "unknown". *)
Inductive percent_reading :=
| Percent (n : Z)
| UnknownPercent.

(** What the design document says is reported for the byte found (or not
    found) at the SOC or SOH position. *)
Definition documented_percent (byte : option Z) : percent_reading :=
  match byte with
  | Some b => if (0 <=? b) && (b <=? 100) then Percent b else UnknownPercent
  | None => UnknownPercent
  end.

(** A 4-cell payload whose pack group starts right after the cell block. *)
Definition payload_soc (soc_byte : Z) : list Z :=
  cells_13v ++ pack_group soc_byte 99.

Definition reported_soc (d : list Z) : option pyval :=
  snd (decode_realtime d 4 ∅) !! "bms_battery_soc".

(** A command-0x27 reply announcing 7 cells. *)
Definition reply_seven_cells : list Z :=
  with_checksum [0x3D; 0x01; 0x02; 0x27; 0x01; 0x00; 0x01; 0x07].

(** A command-0x00 reply of 21 bytes: header, metadata byte, 13 data bytes
    (6 cells and a half) and the checksum. *)
Definition reply_truncated : list Z :=
  with_checksum
    ([0x3D; 0x01; 0x02; 0x00; 0x01; 0x00; 0x00]
     ++ [0xB2; 0x0C; 0xB2; 0x0C; 0xB2; 0x0C; 0xB2; 0x0C; 0xB2; 0x0C; 0xB2; 0x0C;
         0xB2]).

Definition truncated_script : list (list (list Z)) :=
  [[reply_seven_cells]; [reply_truncated]].

(** The replies of an MPPT that reports 19.60 V and 5.78 A on the PV side
    and stays silent on the three battery registers. *)
Definition mppt_pv_script : list (list (list Z)) :=
  [[with_crc [0x01; 0x04; 0x02; 0x07; 0xA8]];
   [with_crc [0x01; 0x04; 0x02; 0x02; 0x42]]].

Definition mppt_requests : list (list Z) :=
  [build_request 0x01 0x304E 1 0x04; build_request 0x01 0x304F 1 0x04;
   build_request 0x01 0x3045 1 0x04; build_request 0x01 0x3046 1 0x04;
   build_request 0x01 0x3047 1 0x04].

Definition env_requests : list (list Z) :=
  [build_request 0x7B 0x0008 2 0x03; build_request 0x7B 0x000E 2 0x03;
   build_request 0x7B 0x0010 2 0x03].

Definition ldr_requests : list (list Z) := [build_request 0x04 0x0000 2 0x03].

Definition pir_requests : list (list Z) := [build_request 0x02 0x0000 1 0x03].

Definition bms_requests : list (list Z) :=
  [bms_frame 0x27 0x01 []; bms_frame 0x00 0x01 [];
   bms_frame 0x2D 0x01 []; bms_frame 0x2E 0x01 []].

(** What a device adds to the aggregate. *)
Definition contribution (x_data : option dict) : dict := default ∅ x_data.

(** A command-0x27 reply announcing 4 cells. *)
Definition reply_four_cells : list Z :=
  with_checksum [0x3D; 0x01; 0x02; 0x27; 0x01; 0x00; 0x01; 0x04].

(** A command-0x00 reply whose payload holds 1313 where 1300 is looked
    for, and no other candidate. *)
Definition reply_no_marker : list Z :=
  with_checksum
    ([0x3D; 0x01; 0x02; 0x00; 0x01; 0x00; 0x00] ++ payload_planted 1313).

Definition no_marker_script : list (list (list Z)) :=
  [[reply_four_cells]; [reply_no_marker]].


(** The MOS state recorded after an exchange that returned [rx]. *)
Definition mos_state (rx : option (list Z)) : string :=
  match rx with
  | Some r =>
      if (8 <=? length r)%nat
      then (if bool_decide (r !! 7%nat = Some 1) then "ON" else "OFF")
      else "UNKNOWN"
  | None => "UNKNOWN"
  end.


(** * Properties *)

(** ** CRC engine *)

Lemma calculate_crc_length (data : list Z) : length (calculate_crc data) = 2%nat.
Proof. reflexivity. Qed.

Lemma lxor_pow2_neq (b : Z) (k : nat) : Z.lxor b (2 ^ Z.of_nat k) <> b.
Proof.
  intros H.
  assert (E : Z.lxor b (Z.lxor b (2 ^ Z.of_nat k)) = Z.lxor b b) by (now rewrite H).
  rewrite <- Z.lxor_assoc, Z.lxor_nilpotent, Z.lxor_0_l in E.
  assert (0 < 2 ^ Z.of_nat k) by (apply Z.pow_pos_nonneg; lia).
  lia.
Qed.

Lemma flip_bit_neq (a b : Z) (i k : nat) :
  (i < 2)%nat -> flip_bit [a; b] i k <> [a; b].
Proof.
  intros Hi E. unfold flip_bit in E.
  destruct i as [|[|i]]; [| |lia]; simpl in E; inversion E as [E'];
    now apply lxor_pow2_neq in E'.
Qed.

Lemma verify_crc_split (body crc : list Z) :
  length crc = 2%nat -> body <> [] ->
  verify_crc (body ++ crc) = bool_decide (crc = calculate_crc body).
Proof.
  intros Hc Hb. unfold verify_crc.
  rewrite length_app, Hc.
  destruct body as [|x body]; [done|]. simpl length.
  replace (S (length body) + 2 - 2)%nat with (length (x :: body))
    by (simpl; lia).
  rewrite drop_app_length, take_app_length.
  destruct (Nat.ltb_spec (S (length body) + 2) 3); [lia|done].
Qed.

Lemma verify_crc_short (frame : list Z) :
  (length frame < 3)%nat -> verify_crc frame = false.
Proof.
  intros H. unfold verify_crc.
  destruct (Nat.ltb_spec (length frame) 3); [done|lia].
Qed.

(** C7, as stated, fails on the empty sequence: its CRC alone is a 2-byte
    frame, which [verify_crc] rejects for its length. *)
Lemma crc_roundtrip_empty_rejected :
  verify_crc ([] ++ calculate_crc []) = false.
Proof. reflexivity. Qed.

(** C7 (amended): for every non-empty byte sequence the frame made of the
    sequence and its CRC verifies; inverting any one bit of either appended
    CRC byte makes verification fail, for every sequence; and every frame
    shorter than 3 bytes fails verification. *)
Theorem crc_roundtrip (seq : list Z) :
  (seq <> [] -> verify_crc (seq ++ calculate_crc seq) = true)
  /\ (forall i k : nat, (i < 2)%nat -> (k < 8)%nat ->
        verify_crc (seq ++ flip_bit (calculate_crc seq) i k) = false)
  /\ (forall frame : list Z, (length frame < 3)%nat -> verify_crc frame = false).
Proof.
  split; [|split].
  - intros Hne. rewrite verify_crc_split by done. now apply bool_decide_eq_true.
  - intros i k Hi _.
    destruct seq as [|x seq].
    + apply verify_crc_short. unfold flip_bit.
      rewrite app_nil_l, length_alter. simpl. lia.
    + rewrite verify_crc_split; [| unfold flip_bit; now rewrite length_alter | done].
      apply bool_decide_eq_false.
      unfold calculate_crc. now apply flip_bit_neq.
  - apply verify_crc_short.
Qed.

Lemma crc_roundtrip_witness :
  verify_crc ([0x01; 0x04; 0x02; 0x12; 0x34]
              ++ calculate_crc [0x01; 0x04; 0x02; 0x12; 0x34]) = true
  /\ verify_crc ([0x01; 0x04; 0x02; 0x12; 0x34]
                 ++ flip_bit (calculate_crc [0x01; 0x04; 0x02; 0x12; 0x34]) 1 7)
     = false
  /\ verify_crc [0xFF; 0xFF] = false.
Proof.
  destruct (crc_roundtrip [0x01; 0x04; 0x02; 0x12; 0x34]) as (H1 & H2 & H3).
  split; [|split].
  - apply H1. discriminate.
  - apply H2; lia.
  - apply H3. simpl. lia.
Defined.

(** ** Standard register reader *)

Lemma pair_registers_lookup (data_bytes : list Z) (k : nat) :
  pair_registers data_bytes !! k =
  match data_bytes !! (2 * k)%nat, data_bytes !! (2 * k + 1)%nat with
  | Some hi, Some lo => Some (Z.lor (Z.shiftl hi 8) lo)
  | _, _ => None
  end.
Proof.
  revert data_bytes. induction k as [|k IH]; intros [|hi [|lo rest]]; try done.
  all: replace (2 * S k)%nat with (S (S (2 * k))) by lia.
  all: replace (S (S (2 * k)) + 1)%nat with (S (S (2 * k + 1))) by lia.
  apply IH.
Qed.

Lemma pair_registers_length (data_bytes : list Z) :
  length (pair_registers data_bytes) = (length data_bytes / 2)%nat.
Proof.
  remember (length data_bytes) as n eqn:Hn.
  revert data_bytes Hn.
  induction n as [n IH] using lt_wf_ind; intros [|hi [|lo rest]] Hn;
    simpl in Hn; subst n; try done.
  cbn [pair_registers length].
  rewrite (IH (length rest) ltac:(lia) rest eq_refl).
  change (S (S (length rest))) with (1 * 2 + length rest)%nat.
  rewrite Nat.add_comm, Nat.div_add by lia. lia.
Qed.

Lemma parse_response_accepted (response : list Z) (regs : list Z) :
  parse_response response = RRRegs regs ->
  (5 <= length response)%nat
  /\ verify_crc response = true
  /\ regs = pair_registers
              (take (Z.to_nat (default 0 (response !! 2%nat))) (drop 3 response)).
Proof.
  unfold parse_response. intros H.
  repeat case_match; try discriminate.
  inversion H; subst. repeat split.
  - match goal with E : (_ <? 5)%nat = false |- _ => apply Nat.ltb_ge in E end.
    done.
  - match goal with E : negb _ = false |- _ => apply negb_false_iff in E end.
    done.
Qed.

(** C6, as stated, fails where the byte count claims more than was
    received: the registers returned for [overclaiming_response] are not the
    pairing of any 6 bytes, only 4 bytes were there to take. *)
Lemma overclaim_not_exactly_byte_count :
  overclaiming_response !! 2%nat = Some 6
  /\ ~ (exists data_bytes : list Z,
          length data_bytes = 6%nat
          /\ parse_response overclaiming_response
             = RRRegs (pair_registers data_bytes)).
Proof.
  split; [reflexivity|].
  intros (data_bytes & Hlen & H).
  assert (L : length (pair_registers data_bytes) = 2%nat).
  { assert (E : exists a b : Z,
               parse_response overclaiming_response = RRRegs [a; b])
      by (do 2 eexists; vm_compute; reflexivity).
    destruct E as (a & b & E). rewrite E in H.
    injection H as E'. now rewrite <- E'. }
  rewrite pair_registers_length, Hlen in L. discriminate.
Qed.

(** C6 (amended): the decoding policy of [read_registers], in order: an
    empty response is [NoResponse]; bit 0x80 in the function-code echo is
    [DeviceException] with the byte that follows (0 when none follows); a
    CRC that does not verify is [FrameCorrupt]; fewer than 5 bytes is
    [FrameTooShort]; otherwise the byte count is read at offset 2 and the
    bytes from offset 3 on, at most that many and no more than the response
    holds, are paired big-endian into registers, an unpaired last byte being
    dropped. *)
Theorem read_registers_policy (response : list Z) :
  (response = [] -> parse_response response = RRNone NoResponse)
  /\ (forall fc : Z,
        response !! 1%nat = Some fc -> Z.land fc 0x80 <> 0 ->
        parse_response response
        = RRNone (DeviceException (default 0 (response !! 2%nat))))
  /\ (response <> [] ->
      (forall fc : Z, response !! 1%nat = Some fc -> Z.land fc 0x80 = 0) ->
      (verify_crc response = false ->
       parse_response response = RRNone FrameCorrupt)
      /\ (verify_crc response = true -> (length response < 5)%nat ->
          parse_response response = RRNone FrameTooShort)
      /\ (verify_crc response = true -> (5 <= length response)%nat ->
          exists (byte_count : Z) (regs : list Z),
            response !! 2%nat = Some byte_count
            /\ parse_response response = RRRegs regs
            /\ length regs
               = (Nat.min (Z.to_nat byte_count) (length response - 3) / 2)%nat
            /\ forall k : nat, (k < length regs)%nat ->
                 exists hi lo : Z,
                   response !! (3 + 2 * k)%nat = Some hi
                   /\ response !! (3 + 2 * k + 1)%nat = Some lo
                   /\ regs !! k = Some (Z.lor (Z.shiftl hi 8) lo))).
Proof.
  split; [|split].
  - intros ->. reflexivity.
  - intros fc Hfc Hbit. unfold parse_response.
    destruct response as [|r0 [|r1 rest]]; try discriminate.
    simpl in Hfc. inversion Hfc; subst r1.
    rewrite bool_decide_eq_false_2 by discriminate.
    simpl lookup. simpl default.
    destruct (Z.eqb_spec (Z.land fc 128) 0) as [E|_]; [contradiction|].
    simpl. now destruct rest.
  - intros Hne Hbit.
    assert (Hflag : (2 <=? length response)%nat
                    && negb (Z.land (default 0 (response !! 1%nat)) 128 =? 0)
                    = false).
    { destruct response as [|r0 [|r1 rest]]; try done.
      simpl. rewrite (Hbit r1) by done. done. }
    unfold parse_response.
    rewrite bool_decide_eq_false_2 by done. rewrite Hflag.
    split; [|split].
    + now intros ->.
    + intros -> Hlen. simpl.
      destruct (Nat.ltb_spec (length response) 5); [done|lia].
    + intros -> Hlen. simpl.
      destruct (Nat.ltb_spec (length response) 5); [lia|].
      destruct (response !! 2%nat) as [byte_count|] eqn:Hbc.
      2:{ apply lookup_ge_None in Hbc. lia. }
      exists byte_count. eexists. split; [done|]. split; [done|].
      simpl default.
      assert (Hl : length (pair_registers
                     (take (Z.to_nat byte_count) (drop 3 response)))
                   = (Nat.min (Z.to_nat byte_count) (length response - 3) / 2)%nat).
      { now rewrite pair_registers_length, length_take, length_drop. }
      split; [done|].
      intros k Hk.
      pose proof (pair_registers_lookup
                    (take (Z.to_nat byte_count) (drop 3 response)) k) as Hp.
      destruct (lookup_lt_is_Some_2 _ _ Hk) as [v Hv].
      rewrite Hv in Hp.
      destruct (take (Z.to_nat byte_count) (drop 3 response) !! (2 * k)%nat)
        as [hi|] eqn:Hhi; [|discriminate].
      destruct (take (Z.to_nat byte_count) (drop 3 response) !! (2 * k + 1)%nat)
        as [lo|] eqn:Hlo; [|discriminate].
      exists hi, lo.
      apply lookup_take_Some in Hhi as [Hhi _].
      apply lookup_take_Some in Hlo as [Hlo _].
      rewrite lookup_drop in Hhi, Hlo.
      replace (3 + 2 * k + 1)%nat with (3 + (2 * k + 1))%nat by lia.
      repeat split; try done. now rewrite Hv, Hp.
Qed.

Lemma read_registers_policy_witness :
  (exists (byte_count : Z) (regs : list Z),
     with_crc [0x01; 0x04; 0x02; 0x12; 0x34] !! 2%nat = Some byte_count
     /\ parse_response (with_crc [0x01; 0x04; 0x02; 0x12; 0x34]) = RRRegs regs
     /\ length regs = 1%nat)
  /\ parse_response [0x01; 0x84; 0x02; 0xC2; 0xC1]
     = RRNone (DeviceException 0x02).
Proof.
  split.
  - destruct (read_registers_policy (with_crc [0x01; 0x04; 0x02; 0x12; 0x34]))
      as (_ & _ & H).
    destruct H as (_ & _ & H).
    + discriminate.
    + intros fc Hfc. injection Hfc as <-. reflexivity.
    + destruct H as (bc & regs & Hbc & Hp & Hl & _);
        [reflexivity | simpl; lia |].
      exists bc, regs. injection Hbc as <-. repeat split; [exact Hp | exact Hl].
  - destruct (read_registers_policy [0x01; 0x84; 0x02; 0xC2; 0xC1])
      as (_ & H & _).
    rewrite (H 0x84); [reflexivity | reflexivity | discriminate].
Defined.

Section Reader.
Context {Dev : Type}.
Variable respond : Dev -> list Z -> Dev * list (list Z).

(** One exchange on an open port: the request is written, and the response
    decoded is what the first burst of the reply holds, cut at the expected
    length. *)
Lemma read_registers_open (slave_id start_address : Z) (count : nat)
    (function_code : Z) (b : bus Dev) :
  is_open b = true ->
  exists pending : list (list Z),
    read_registers respond slave_id start_address count function_code b
    = (Ok (parse_response
             (take (3 + count * 2 + 2)
                (default []
                   (head (snd (respond (device b)
                                 (build_request slave_id start_address count
                                    function_code))))))),
       Bus (fst (respond (device b)
                   (build_request slave_id start_address count function_code)))
           true
           (tx_log b ++ [build_request slave_id start_address count function_code])
           pending).
Proof.
  intros Hopen.
  unfold read_registers, try_except, bind, ret, reset_input_buffer,
    reset_output_buffer, serial_write, serial_read.
  rewrite Hopen. cbn [negb is_open device tx_log rx_pending].
  destruct (respond (device b) (build_request slave_id start_address count function_code))
    as [dev' bursts].
  cbn [is_open device tx_log rx_pending fst snd app].
  destruct bursts as [|burst rest]; cbn [head default]; eauto.
Qed.

Lemma read_registers_closed (slave_id start_address : Z) (count : nat)
    (function_code : Z) (b : bus Dev) :
  is_open b = false ->
  read_registers respond slave_id start_address count function_code b
  = (Ok (RRNone PortClosed), b).
Proof. intros H. unfold read_registers. now rewrite H. Qed.

(** [read_registers] returns: no exception leaves it, and an open port
    stays open. *)
Lemma read_registers_total (slave_id start_address : Z) (count : nat)
    (function_code : Z) (b : bus Dev) :
  exists (r : rr_result) (b' : bus Dev),
    read_registers respond slave_id start_address count function_code b
    = (Ok r, b')
    /\ is_open b' = is_open b
    /\ tx_log b'
       = tx_log b
         ++ (if is_open b
             then [build_request slave_id start_address count function_code]
             else []).
Proof.
  destruct (is_open b) eqn:Hopen.
  - destruct (read_registers_open slave_id start_address count function_code b Hopen)
      as [pending ->].
    eauto.
  - rewrite read_registers_closed by done.
    do 2 eexists. split; [done|]. split; [done|]. now rewrite app_nil_r.
Qed.

End Reader.

(** C10: [read_registers] never checks the byte count: an accepted response
    yields floor(min(byteCount, len(response) - 3) / 2) registers; a reply
    to a request for 2 registers that carries 1 is accepted with 1; and
    when the byte count claims more than the payload, the two CRC bytes are
    decoded as a register. *)
Theorem byte_count_unchecked :
  (forall response regs : list Z,
     parse_response response = RRRegs regs ->
     exists byte_count : Z,
       response !! 2%nat = Some byte_count
       /\ length regs
          = (Nat.min (Z.to_nat byte_count) (length response - 3) / 2)%nat)
  /\ (exists regs : list Z,
        fst (read_registers scripted 0x01 0x304E 2 0x04
               (fresh_bus short_reply_script)) = Ok (RRRegs regs)
        /\ (length regs < 2)%nat)
  /\ (exists crc_lo crc_hi : Z,
        calculate_crc [0x01; 0x04; 0x06; 0x12; 0x34] = [crc_lo; crc_hi]
        /\ parse_response overclaiming_response
           = RRRegs [0x1234; Z.lor (Z.shiftl crc_lo 8) crc_hi]).
Proof.
  split; [|split].
  - intros response regs H.
    apply parse_response_accepted in H as (Hlen & _ & ->).
    destruct (response !! 2%nat) as [byte_count|] eqn:Hbc.
    2:{ apply lookup_ge_None in Hbc. lia. }
    exists byte_count. split; [done|].
    now rewrite pair_registers_length, length_take, length_drop.
  - exists [0x1234]. split; [reflexivity | simpl; lia].
  - do 2 eexists. split; reflexivity.
Qed.

Lemma byte_count_unchecked_witness :
  exists byte_count : Z,
    overclaiming_response !! 2%nat = Some byte_count
    /\ 2%nat
       = (Nat.min (Z.to_nat byte_count) (length overclaiming_response - 3) / 2)%nat.
Proof.
  destruct byte_count_unchecked as (H & _ & _).
  destruct (H overclaiming_response
              [0x1234; 0xF586]) as (bc & Hbc & Hlen).
  - reflexivity.
  - exists bc. split; [exact Hbc | exact Hlen].
Defined.

(** ** BMS payload decoding *)

Lemma u16_le_inv (buf : list Z) (i : nat) (v : Z) :
  u16_le buf i = Ok v ->
  exists lo hi : Z,
    buf !! i = Some lo /\ buf !! (i + 1)%nat = Some hi
    /\ v = Z.lor lo (Z.shiftl hi 8).
Proof.
  unfold u16_le, getitem, rbind.
  destruct (buf !! i) as [lo|]; [|discriminate].
  destruct (buf !! (i + 1)%nat) as [hi|]; [|discriminate].
  intros [= <-]. eauto.
Qed.

Lemma u16_le_in_range (buf : list Z) (i : nat) :
  (i + 1 < length buf)%nat -> exists v : Z, u16_le buf i = Ok v.
Proof.
  intros H. unfold u16_le, getitem, rbind.
  destruct (lookup_lt_is_Some_2 buf i ltac:(lia)) as [lo ->].
  destruct (lookup_lt_is_Some_2 buf (i + 1) ltac:(lia)) as [hi ->].
  eauto.
Qed.

Lemma u16_le_out_of_range (buf : list Z) (i : nat) :
  (length buf <= i + 1)%nat -> u16_le buf i = Raise IndexError.
Proof.
  intros H. unfold u16_le, getitem, rbind.
  destruct (buf !! i) as [lo|]; [|done].
  now rewrite (lookup_ge_None_2 buf (i + 1)) by lia.
Qed.

Lemma decode_cells_from_ok (d : list Z) (i n : nat) :
  (2 * (i + n) <= length d)%nat ->
  exists cells : list float,
    decode_cells_from d i n = Ok cells
    /\ length cells = n
    /\ forall k : nat, (k < n)%nat ->
         exists lo hi : Z,
           d !! (2 * (i + k))%nat = Some lo
           /\ d !! (2 * (i + k) + 1)%nat = Some hi
           /\ cells !! k = Some (millis (Z.lor lo (Z.shiftl hi 8))).
Proof.
  revert i. induction n as [|n IH]; intros i Hlen.
  - exists []. split; [done|]. split; [done|]. intros k Hk. lia.
  - cbn [decode_cells_from].
    destruct (u16_le_in_range d (i * 2) ltac:(lia)) as [v Hv].
    rewrite Hv. cbn [rbind].
    destruct (IH (S i) ltac:(lia)) as (cells & -> & Hl & Hk).
    cbn [rbind]. eexists. split; [done|]. split; [simpl; lia|].
    intros [|k] Hlt.
    + apply u16_le_inv in Hv as (lo & hi & Hlo & Hhi & ->).
      exists lo, hi. replace (2 * (i + 0))%nat with (i * 2)%nat by lia.
      done.
    + destruct (Hk k ltac:(lia)) as (lo & hi & Hlo & Hhi & Hc).
      exists lo, hi. replace (i + S k)%nat with (S i + k)%nat by lia.
      done.
Qed.

Lemma decode_cells_from_raise (d : list Z) (i n : nat) :
  (0 < n)%nat -> (length d < 2 * (i + n))%nat ->
  decode_cells_from d i n = Raise IndexError.
Proof.
  revert i. induction n as [|n IH]; intros i Hn Hlen; [lia|].
  cbn [decode_cells_from].
  destruct (Nat.le_gt_cases (length d) (i * 2 + 1)) as [Hout|Hin].
  - now rewrite u16_le_out_of_range.
  - destruct (u16_le_in_range d (i * 2) Hin) as [v ->]. cbn [rbind].
    rewrite IH by lia. done.
Qed.

Lemma in_window_true (v_low v_high val : Z) :
  in_window v_low v_high val = true <-> v_low <= val <= v_high.
Proof. unfold in_window. rewrite andb_true_iff, !Z.leb_le. tauto. Qed.

Lemma in_window_false (v_low v_high val : Z) :
  in_window v_low v_high val = false <-> ~ (v_low <= val <= v_high).
Proof. rewrite <- in_window_true. now destruct in_window. Qed.

(** The marker loop stops at the first offset whose value is in the window. *)
Lemma find_pack_idx_spec (d : list Z) (v_low v_high : Z) (i n : nat) :
  (n = 0 \/ i + n < length d)%nat ->
  exists r : option nat,
    find_pack_idx d v_low v_high i n = Ok r
    /\ match r with
       | Some p =>
           (i <= p < i + n)%nat
           /\ (exists val : Z,
                 u16_le d p = Ok val /\ v_low <= val <= v_high)
           /\ forall (q : nat) (val : Z),
                (i <= q < p)%nat -> u16_le d q = Ok val ->
                ~ (v_low <= val <= v_high)
       | None =>
           forall (q : nat) (val : Z),
             (i <= q < i + n)%nat -> u16_le d q = Ok val ->
             ~ (v_low <= val <= v_high)
       end.
Proof.
  revert i. induction n as [|n IH]; intros i Hlen.
  - exists None. split; [done|]. intros q val Hq. lia.
  - cbn [find_pack_idx].
    destruct (u16_le_in_range d i ltac:(lia)) as [v Hv].
    rewrite Hv. cbn [rbind].
    destruct (in_window v_low v_high v) eqn:Hw.
    + exists (Some i). split; [done|]. split; [lia|]. split.
      * exists v. split; [done|]. now apply in_window_true.
      * intros q val Hq. lia.
    + destruct (IH (S i) ltac:(lia)) as (r & -> & Hr).
      exists r. split; [done|].
      apply in_window_false in Hw.
      destruct r as [p|].
      * destruct Hr as (Hp & Hval & Hfirst).
        split; [lia|]. split; [done|].
        intros q val Hq Hu.
        destruct (decide (q = i)) as [->|Hne].
        -- rewrite Hv in Hu. now injection Hu as <-.
        -- apply (Hfirst q val); [lia|done].
      * intros q val Hq Hu.
        destruct (decide (q = i)) as [->|Hne].
        -- rewrite Hv in Hu. now injection Hu as <-.
        -- apply (Hr q val); [lia|done].
Qed.

(** A zero run that a non-zero byte ends moves the start to that byte. *)
Lemma skip_zero_padding_run (n : nat) (x : Z) (tail : list Z)
    (i zero_run base_start : nat) :
  x <> 0 -> (16 <= zero_run + n)%nat ->
  skip_zero_padding (replicate n 0 ++ x :: tail) i zero_run base_start
  = (i + n)%nat.
Proof.
  intros Hx. revert i zero_run.
  induction n as [|n IH]; intros i zero_run Hrun;
    cbn [replicate app skip_zero_padding].
  - destruct (Z.eqb_spec x 0); [done|].
    destruct (Nat.leb_spec 16 zero_run); lia.
  - rewrite Z.eqb_refl, IH by lia. lia.
Qed.

(** The loop never moves the start backwards. *)
Lemma skip_zero_padding_ge (rest : list Z) (i zero_run base_start : nat) :
  (base_start <= i)%nat ->
  (base_start <= skip_zero_padding rest i zero_run base_start)%nat.
Proof.
  revert i zero_run. induction rest as [|b rest IH]; intros i zero_run Hi;
    cbn [skip_zero_padding]; [done|].
  destruct (b =? 0); [apply IH; lia|].
  destruct (16 <=? zero_run)%nat; [done | apply IH; lia].
Qed.

(** A zero run that lasts to the end of the payload moves nothing. *)
Lemma skip_zero_padding_to_end (n i zero_run base_start : nat) :
  skip_zero_padding (replicate n 0) i zero_run base_start = base_start.
Proof.
  revert i zero_run.
  induction n as [|n IH]; intros i zero_run; cbn [replicate skip_zero_padding];
    [done|].
  rewrite Z.eqb_refl. apply IH.
Qed.

(** Without 16 zero bytes in a row, the start stays. *)
Lemma skip_zero_padding_no_run (rest : list Z) (i zero_run base_start : nat) :
  (forall j : nat, ~ zero_run_at (replicate zero_run 0 ++ rest) j) ->
  skip_zero_padding rest i zero_run base_start = base_start.
Proof.
  revert i zero_run. induction rest as [|b rest IH]; intros i zero_run Hno; [done|].
  cbn [skip_zero_padding].
  destruct (Z.eqb_spec b 0) as [->|Hb].
  - apply IH. intros j Hj. apply (Hno j). intros t Ht.
    specialize (Hj t Ht).
    replace (replicate zero_run 0 ++ 0 :: rest)
      with (replicate (S zero_run) 0 ++ rest); [done|].
    change (0 :: rest) with ([0] ++ rest). rewrite app_assoc.
    f_equal. change [0] with (replicate 1 0).
    rewrite <- replicate_add. f_equal. lia.
  - destruct (Nat.leb_spec 16 zero_run) as [Hge|Hlt].
    + exfalso. apply (Hno 0%nat). intros t Ht.
      rewrite lookup_app_l by (rewrite length_replicate; lia).
      apply lookup_replicate_2. lia.
    + apply IH. intros j Hj.
      apply (Hno (zero_run + 1 + j)%nat). intros t Ht.
      specialize (Hj t Ht). cbn in Hj.
      rewrite lookup_app_r by (rewrite length_replicate; lia).
      rewrite length_replicate.
      replace (zero_run + 1 + j + t - zero_run)%nat with (S (j + t)) by lia.
      done.
Qed.

Lemma drop_zero_run (d : list Z) (start n : nat) (x : Z) :
  (forall t : nat, (t < n)%nat -> d !! (start + t)%nat = Some 0) ->
  d !! (start + n)%nat = Some x ->
  drop start d = replicate n 0 ++ x :: drop (S (start + n)) d.
Proof.
  intros Hz Hx. apply list_eq. intros k. rewrite lookup_drop.
  destruct (Nat.lt_trichotomy k n) as [Hlt|[->|Hgt]].
  - rewrite lookup_app_l by (rewrite length_replicate; lia).
    rewrite Hz by done. symmetry. now apply lookup_replicate_2.
  - rewrite lookup_app_r by (rewrite length_replicate; lia).
    rewrite length_replicate, Nat.sub_diag. done.
  - rewrite lookup_app_r by (rewrite length_replicate; lia).
    rewrite length_replicate.
    replace (k - n)%nat with (S (k - n - 1)) by lia.
    replace (start + k)%nat with (S (start + n) + (k - n - 1))%nat by lia.
    now rewrite <- lookup_drop.
Qed.

Lemma drop_all_zero (d : list Z) (start : nat) :
  (forall j : nat, (start <= j < length d)%nat -> d !! j = Some 0) ->
  drop start d = replicate (length d - start) 0.
Proof.
  intros Hz. apply list_eq. intros k. rewrite lookup_drop.
  destruct (Nat.lt_ge_cases (start + k) (length d)) as [Hlt|Hge].
  - rewrite Hz by lia. symmetry. apply lookup_replicate_2. lia.
  - rewrite lookup_ge_None_2 by done. symmetry.
    apply lookup_ge_None_2. rewrite length_replicate. lia.
Qed.

(** C4, as stated, fails when the zero run lasts to the end of the payload:
    20 zero bytes begin at the scan start, and the scan start stays. *)
Lemma zero_run_to_end_not_skipped :
  (forall t : nat, (t < 20)%nat ->
     payload_zero_tail !! (scan_start 4 + t)%nat = Some 0)
  /\ base_start_of payload_zero_tail 4 = scan_start 4.
Proof.
  split; [|reflexivity].
  intros t Ht. do 20 (destruct t as [|t]; [reflexivity|]). lia.
Qed.

(** C4 (amended): the scan start is max(2*seriesCount, 8) and is never
    moved backwards; when at least 16 consecutive zero bytes begin at that
    offset and a non-zero byte ends the run inside the payload, the scan
    start moves to that byte; when no 16 consecutive zero bytes are found
    from that offset on, or when the bytes from that offset to the end of
    the payload are all zero, the scan start is left unchanged. *)
Theorem zero_run_skip (d : list Z) (series_count : nat) :
  scan_start series_count = Nat.max (2 * series_count) 8
  /\ (scan_start series_count <= base_start_of d series_count)%nat
  /\ (forall (n : nat) (x : Z),
        (16 <= n)%nat ->
        (forall t : nat, (t < n)%nat ->
           d !! (scan_start series_count + t)%nat = Some 0) ->
        d !! (scan_start series_count + n)%nat = Some x -> x <> 0 ->
        base_start_of d series_count = (scan_start series_count + n)%nat)
  /\ ((forall j : nat, (scan_start series_count <= j)%nat -> ~ zero_run_at d j) ->
      base_start_of d series_count = scan_start series_count)
  /\ ((forall j : nat, (scan_start series_count <= j < length d)%nat ->
         d !! j = Some 0) ->
      base_start_of d series_count = scan_start series_count).
Proof.
  split; [reflexivity|]. split; [|split; [|split]].
  - now apply skip_zero_padding_ge.
  - intros n x Hn Hz Hx Hne. unfold base_start_of.
    rewrite (drop_zero_run d _ n x Hz Hx).
    now apply skip_zero_padding_run.
  - intros Hno. unfold base_start_of.
    apply skip_zero_padding_no_run. intros j Hj.
    apply (Hno (scan_start series_count + j)%nat); [lia|].
    intros t Ht. specialize (Hj t Ht). cbn [replicate app] in Hj.
    rewrite lookup_drop in Hj. now rewrite <- Nat.add_assoc.
  - intros Hz. unfold base_start_of.
    rewrite (drop_all_zero d _ Hz). apply skip_zero_padding_to_end.
Qed.

Lemma zero_run_skip_witness :
  base_start_of payload_run20 4 = (scan_start 4 + 20)%nat
  /\ base_start_of payload_run10 4 = scan_start 4.
Proof.
  split.
  - destruct (zero_run_skip payload_run20 4) as (_ & _ & H & _).
    apply (H 20%nat 0x14); [lia | | reflexivity | discriminate].
    intros t Ht. do 20 (destruct t as [|t]; [reflexivity|]). lia.
  - destruct (zero_run_skip payload_run10 4) as (_ & _ & _ & H & _).
    apply H. intros j Hj Hrun.
    change (scan_start 4) with 8%nat in Hj.
    destruct (Nat.le_gt_cases j 18) as [Hle|Hgt].
    + assert (E : payload_run10 !! (j + (18 - j))%nat = Some 0)
        by (apply Hrun; lia).
      replace (j + (18 - j))%nat with 18%nat in E by lia. discriminate.
    + assert (E : payload_run10 !! (j + 15)%nat = Some 0)
        by (apply Hrun; lia).
      rewrite lookup_ge_None_2 in E by (simpl; lia). discriminate.
Defined.

(** The locator, once the guess is known: the first offset from the scan
    start on, before the last 8 bytes, whose value is within 12 of it. *)
Lemma locate_pack_spec (d : list Z) (series_count : nat) (cells : list float)
    (g : Z) :
  v_guess_of cells = Ok g ->
  exists r : option nat,
    locate_pack d series_count cells = Ok r
    /\ match r with
       | Some p =>
           (base_start_of d series_count <= p < length d - 8)%nat
           /\ (exists val : Z,
                 u16_le d p = Ok val /\ g - 12 <= val <= g + 12)
           /\ forall (q : nat) (val : Z),
                (base_start_of d series_count <= q < p)%nat ->
                u16_le d q = Ok val -> ~ (g - 12 <= val <= g + 12)
       | None =>
           forall (q : nat) (val : Z),
             (base_start_of d series_count <= q < length d - 8)%nat ->
             u16_le d q = Ok val -> ~ (g - 12 <= val <= g + 12)
       end.
Proof.
  intros Hg. unfold locate_pack. rewrite Hg. cbn [rbind].
  set (base := base_start_of d series_count).
  destruct (find_pack_idx_spec d (g - 12) (g + 12) base (length d - 8 - base))
    as (r & Hr & Hspec); [lia|].
  exists r. split; [done|].
  destruct r as [p|].
  - destruct Hspec as (Hp & Hval & Hfirst). split; [lia|]. done.
  - intros q val Hq. apply Hspec. lia.
Qed.

(** Looking a key up under the writes that follow one another in the code. *)
Ltac lookup_written :=
  repeat (rewrite lookup_insert_ne by (intros [=])); rewrite ?lookup_insert_eq;
  try reflexivity.

Lemma locate_pack_bounds (d : list Z) (series_count : nat)
    (cells : list float) (p : nat) :
  locate_pack d series_count cells = Ok (Some p) ->
  (base_start_of d series_count <= p < length d - 8)%nat.
Proof.
  intros H.
  destruct (v_guess_of cells) as [g|e] eqn:Hg.
  - destruct (locate_pack_spec d series_count cells g Hg) as (r & Hr & Hspec).
    rewrite Hr in H. injection H as ->. tauto.
  - unfold locate_pack in H. rewrite Hg in H. discriminate.
Qed.

Lemma pack_fields_found (d : list Z) (cells : list float) (p : nat) :
  (p < length d - 8)%nat ->
  exists (v i soc_byte soh_byte : Z),
    u16_le d p = Ok v /\ i16_le d (p + 2) = Ok i
    /\ d !! (p + 6)%nat = Some soc_byte /\ d !! (p + 7)%nat = Some soh_byte
    /\ pack_fields d cells (Some p)
       = Ok (PackSummary (centis v) (centis i)
               (percent_or_zero soc_byte) (percent_or_zero soh_byte)).
Proof.
  intros Hp. unfold pack_fields, i16_le, byte_or_255.
  destruct (u16_le_in_range d p ltac:(lia)) as [v ->].
  destruct (u16_le_in_range d (p + 2) ltac:(lia)) as [i ->].
  destruct (lookup_lt_is_Some_2 d (p + 6) ltac:(lia)) as [soc_byte ->].
  destruct (lookup_lt_is_Some_2 d (p + 7) ltac:(lia)) as [soh_byte ->].
  cbn [rbind]. eauto 10.
Qed.

Lemma percent_or_zero_spec (cand : Z) :
  (0 <= cand <= 100 -> percent_or_zero cand = cand)
  /\ (~ (0 <= cand <= 100) -> percent_or_zero cand = 0).
Proof.
  unfold percent_or_zero.
  destruct (Z.leb_spec 0 cand), (Z.leb_spec cand 100); cbn; split; intros; lia.
Qed.

(** The block, run to its end. *)
Lemma decode_realtime_run (d : list Z) (series_count : nat) (data : dict)
    (cells : list float) (pack_idx : option nat) (pack : pack_summary) :
  decode_cells d series_count = Ok cells ->
  locate_pack d series_count cells = Ok pack_idx ->
  pack_fields d cells pack_idx = Ok pack ->
  decode_realtime d series_count data
  = (Ok tt,
     <["bms_battery_power" :=
         VFloat (PyFloat.round_nd (vpack pack * ipack pack) 2)]>
     (<["bms_battery_soh" := VInt (soh pack)]>
     (<["bms_battery_soc" := VInt (soc pack)]>
     (<["bms_battery_current" := VFloat (ipack pack)]>
     (<["bms_battery_voltage" := VFloat (vpack pack)]>
     (<["bms_cell_4_voltage" := cell_or_zero cells 3]>
     (<["bms_cell_3_voltage" := cell_or_zero cells 2]>
     (<["bms_cell_2_voltage" := cell_or_zero cells 1]>
     (<["bms_cell_1_voltage" := cell_or_zero cells 0]> data))))))))).
Proof.
  intros Hc Hl Hp. unfold decode_realtime, bind, lift, set_item.
  now rewrite Hc, Hl, Hp.
Qed.

(** Whatever follows, the four cell keys hold what step 1 wrote. *)
Lemma decode_realtime_cell_keys (d : list Z) (series_count : nat) (data : dict)
    (cells : list float) (r : result unit) (data' : dict) :
  decode_cells d series_count = Ok cells ->
  decode_realtime d series_count data = (r, data') ->
  data' !! "bms_cell_1_voltage" = Some (cell_or_zero cells 0)
  /\ data' !! "bms_cell_2_voltage" = Some (cell_or_zero cells 1)
  /\ data' !! "bms_cell_3_voltage" = Some (cell_or_zero cells 2)
  /\ data' !! "bms_cell_4_voltage" = Some (cell_or_zero cells 3).
Proof.
  intros Hc. unfold decode_realtime, bind, lift, set_item. rewrite Hc.
  destruct (locate_pack d series_count cells) as [pack_idx|e].
  - destruct (pack_fields d cells pack_idx) as [pack|e];
      intros [= <- <-]; repeat split; lookup_written.
  - intros [= <- <-]; repeat split; lookup_written.
Qed.

Lemma decode_realtime_raise (d : list Z) (series_count : nat) (data : dict)
    (e : pyexn) :
  decode_cells d series_count = Raise e ->
  decode_realtime d series_count data = (Raise e, data).
Proof.
  intros Hc. unfold decode_realtime, bind, lift. now rewrite Hc.
Qed.

(** C3: the locator accepts the first offset at or after the scan start,
    and before the last 8 bytes of the payload, whose little-endian 16-bit
    value is within 12 of int(round(sum(cells) * 100)), and misses when
    there is none; when that guess is 1300, a value of 1312 at such an
    offset with no match before it is found at that offset, and a value of
    1313 is never the match. The block runs the locator on the cells it
    decoded and reports the value found there, divided by 100, as the pack
    voltage. *)
Theorem locator_first_match (d : list Z) (series_count : nat)
    (cells : list float) (g : Z) :
  PyFloat.round_int (PyFloat.sum cells * PyFloat.of_int 100)%float = Ok g ->
  (exists r : option nat,
     locate_pack d series_count cells = Ok r
     /\ match r with
        | Some p =>
            (base_start_of d series_count <= p < length d - 8)%nat
            /\ (exists val : Z,
                  u16_le d p = Ok val /\ g - 12 <= val <= g + 12)
            /\ forall (q : nat) (val : Z),
                 (base_start_of d series_count <= q < p)%nat ->
                 u16_le d q = Ok val -> ~ (g - 12 <= val <= g + 12)
        | None =>
            forall (q : nat) (val : Z),
              (base_start_of d series_count <= q < length d - 8)%nat ->
              u16_le d q = Ok val -> ~ (g - 12 <= val <= g + 12)
        end)
  /\ (g = 1300 ->
      forall p : nat,
        (base_start_of d series_count <= p < length d - 8)%nat ->
        u16_le d p = Ok 1312 ->
        (forall (q : nat) (val : Z),
           (base_start_of d series_count <= q < p)%nat ->
           u16_le d q = Ok val -> ~ (1288 <= val <= 1312)) ->
        locate_pack d series_count cells = Ok (Some p))
  /\ (g = 1300 ->
      forall p : nat,
        u16_le d p = Ok 1313 ->
        locate_pack d series_count cells <> Ok (Some p))
  /\ (decode_cells d series_count = Ok cells ->
      forall data : dict,
        exists (r : option nat) (data' : dict),
          locate_pack d series_count cells = Ok r
          /\ decode_realtime d series_count data = (Ok tt, data')
          /\ match r with
             | Some p =>
                 exists val : Z,
                   u16_le d p = Ok val
                   /\ g - 12 <= val <= g + 12
                   /\ data' !! "bms_battery_voltage"
                      = Some (VFloat (PyFloat.round_nd
                                        (PyFloat.of_int val / PyFloat.of_int 100) 2))
             | None =>
                 data' !! "bms_battery_voltage"
                 = Some (VFloat (PyFloat.round_nd (PyFloat.sum cells) 2))
             end).
Proof.
  intros Hg.
  destruct (locate_pack_spec d series_count cells g Hg) as (r & Hr & Hspec).
  split; [eauto|]. split; [|split].
  - intros -> p Hp Hval Hfirst. rewrite Hr. do 2 f_equal.
    destruct r as [p'|].
    + destruct Hspec as (Hp' & (val' & Hval' & Hin') & Hfirst').
      destruct (Nat.lt_trichotomy p p') as [Hlt|[->|Hgt]]; [|done|].
      * exfalso. apply (Hfirst' p 1312); [lia | done | lia].
      * exfalso. apply (Hfirst p' val'); [lia | done | lia].
    + exfalso. apply (Hspec p 1312); [lia | done | lia].
  - intros -> p Hval. rewrite Hr. intros [= ->].
    destruct Hspec as (_ & (val & Hval' & Hin) & _).
    rewrite Hval in Hval'. injection Hval' as <-. lia.
  - intros Hc data. exists r.
    destruct r as [p|].
    + destruct Hspec as (Hp & (val & Hval & Hin) & _).
      destruct (pack_fields_found d cells p ltac:(lia))
        as (v & i & soc_byte & soh_byte & Hv & _ & _ & _ & Hf).
      rewrite Hval in Hv. injection Hv as <-.
      eexists. split; [exact Hr|].
      split; [exact (decode_realtime_run d series_count data _ _ _ Hc Hr Hf)|].
      exists val. split; [exact Hval|]. split; [exact Hin|].
      cbn [vpack]. unfold centis. lookup_written.
    + eexists. split; [exact Hr|].
      split; [exact (decode_realtime_run d series_count data _ _ _ Hc Hr eq_refl)|].
      cbn [vpack]. lookup_written.
Qed.

Lemma locator_first_match_witness :
  PyFloat.round_int (PyFloat.sum cells_13v_decoded * PyFloat.of_int 100)%float
  = Ok 1300
  /\ decode_cells (payload_planted 1312) 4 = Ok cells_13v_decoded
  /\ locate_pack (payload_planted 1312) 4 cells_13v_decoded = Ok (Some 11%nat)
  /\ locate_pack (payload_planted 1313) 4 cells_13v_decoded <> Ok (Some 11%nat).
Proof.
  assert (Hg : PyFloat.round_int
                 (PyFloat.sum cells_13v_decoded * PyFloat.of_int 100)%float
               = Ok 1300) by (vm_compute; reflexivity).
  split; [exact Hg|]. split; [vm_compute; reflexivity|]. split.
  - destruct (locator_first_match (payload_planted 1312) 4 cells_13v_decoded
                1300 Hg) as (_ & H & _).
    apply H; [reflexivity | vm_compute; lia | reflexivity |].
    intros q val Hq.
    change (base_start_of (payload_planted 1312) 4) with 8%nat in Hq.
    destruct (decide (q = 8%nat)) as [->|?];
      [intros Hu; vm_compute in Hu; injection Hu as <-; lia|].
    destruct (decide (q = 9%nat)) as [->|?];
      [intros Hu; vm_compute in Hu; injection Hu as <-; lia|].
    destruct (decide (q = 10%nat)) as [->|?];
      [intros Hu; vm_compute in Hu; injection Hu as <-; lia|].
    lia.
  - destruct (locator_first_match (payload_planted 1313) 4 cells_13v_decoded
                1300 Hg) as (_ & _ & H & _).
    apply H; reflexivity.
Defined.

Section BmsRun.
Context {Dev : Type}.
Variable respond : Dev -> list Z -> Dev * list (list Z).

Lemma serial_read_waiting_open (b : bus Dev) :
  is_open b = true ->
  exists (rx : list Z) (b' : bus Dev),
    serial_read_waiting b = (Ok rx, b')
    /\ is_open b' = true /\ tx_log b' = tx_log b.
Proof.
  intros Hopen. unfold serial_read_waiting. rewrite Hopen.
  destruct (rx_pending b); eauto 10.
Qed.

Lemma drain_open (n : nat) (rx : list Z) (b : bus Dev) :
  is_open b = true ->
  exists (rx' : list Z) (b' : bus Dev),
    drain n rx b = (Ok rx', b')
    /\ is_open b' = true /\ tx_log b' = tx_log b.
Proof.
  revert rx b. induction n as [|n IH]; intros rx b Hopen; cbn [drain].
  - unfold ret. eauto 10.
  - unfold bind.
    destruct (serial_read_waiting_open b Hopen) as (extra & b1 & -> & Ho1 & Ht1).
    destruct (bool_decide (extra = [])).
    + unfold ret. eauto 10.
    + destruct (IH (rx ++ extra) b1 Ho1) as (rx' & b' & -> & Ho & Ht).
      exists rx', b'. split; [done|]. split; [done|]. congruence.
Qed.

(** One BMS exchange on an open port: the frame is written and the call
    returns. *)
Lemma bms_send_open (cmd rw : Z) (data : list Z) (b : bus Dev) :
  is_open b = true ->
  exists (rx : option (list Z)) (b' : bus Dev),
    bms_send respond cmd rw data b = (Ok rx, b')
    /\ is_open b' = true
    /\ tx_log b' = tx_log b ++ [bms_frame cmd rw data].
Proof.
  intros Hopen.
  unfold bms_send, bind, reset_input_buffer, reset_output_buffer, serial_write.
  rewrite Hopen. cbn [is_open device tx_log rx_pending].
  destruct (respond (device b) (bms_frame cmd rw data)) as [dev' bursts].
  set (b1 := Bus dev' true (tx_log b ++ [bms_frame cmd rw data]) ([] ++ bursts)).
  destruct (serial_read_waiting_open b1 eq_refl) as (rx & b2 & -> & Ho2 & Ht2).
  destruct (drain_open 3 rx b2 Ho2) as (rx' & b3 & -> & Ho3 & Ht3).
  assert (Ht : tx_log b3 = tx_log b ++ [bms_frame cmd rw data])
    by (rewrite Ht3, Ht2; reflexivity).
  repeat case_match; unfold ret; eauto 10.
Qed.

Lemma bms_send_closed (cmd rw : Z) (data : list Z) (b : bus Dev) :
  is_open b = false ->
  bms_send respond cmd rw data b = (Raise SerialException, b).
Proof.
  intros Hclosed. unfold bms_send, bind, reset_input_buffer.
  now rewrite Hclosed.
Qed.

Lemma bms_send_ok_open (cmd rw : Z) (data : list Z) (b b' : bus Dev)
    (rx : option (list Z)) :
  bms_send respond cmd rw data b = (Ok rx, b') ->
  is_open b = true /\ is_open b' = true
  /\ tx_log b' = tx_log b ++ [bms_frame cmd rw data].
Proof.
  intros H. destruct (is_open b) eqn:Hopen.
  - destruct (bms_send_open cmd rw data b Hopen) as (rx' & b'' & E & Ho & Ht).
    rewrite E in H. injection H as <- <-. done.
  - rewrite bms_send_closed in H by done. discriminate.
Qed.

(** One iteration of the MOS loop on an open port writes its key. *)
Lemma mos_status_open (cmd : Z) (key : string) (b : bus Dev) (data : dict) :
  is_open b = true ->
  exists (state : string) (b' : bus Dev),
    mos_status respond cmd key (b, data)
    = (Ok tt, (b', <[key := VStr state]> data))
    /\ is_open b' = true
    /\ tx_log b' = tx_log b ++ [bms_frame cmd 0x01 []].
Proof.
  intros Hopen. unfold mos_status, bind, on_bus, on_data, set_item.
  cbn [fst snd].
  destruct (bms_send_open cmd 0x01 [] b Hopen) as (rx & b' & -> & Ho & Ht).
  destruct rx as [rx|]; [destruct (8 <=? length rx)%nat|]; cbn [fst snd];
    eauto 10.
Qed.

(** The BMS read after a command-0x00 reply that passed the checksum and
    the length guard: what the block does decides the rest. *)
Lemma bms_body_realtime (b b1 b2 : bus Dev) (rx1 : option (list Z))
    (rx : list Z) (series_count : nat) :
  bms_send respond 0x27 0x01 [] b = (Ok rx1, b1) ->
  cell_count rx1 = Ok series_count ->
  bms_send respond 0x00 0x01 [] b1 = (Ok (Some rx), b2) ->
  (20 < length rx)%nat ->
  bms_body respond (b, ∅)
  = match decode_realtime (realtime_payload rx) series_count ∅ with
    | (Ok _, data) =>
        (mos_status respond 0x2D "bms_discharge_mos_status" ;;
         mos_status respond 0x2E "bms_charge_mos_status") (b2, data)
    | (Raise e, data) => (Raise e, (b2, data))
    end.
Proof.
  intros H1 Hc H2 Hlen.
  unfold bms_body. unfold bind at 1. unfold on_bus at 1. cbn [fst snd].
  rewrite H1. unfold bind at 1. unfold lift at 1. rewrite Hc.
  unfold bind at 1. unfold on_bus at 1. cbn [fst snd]. rewrite H2.
  unfold bind at 1.
  destruct (Nat.ltb_spec 20 (length rx)) as [_|?]; [|lia].
  unfold on_data. cbn [fst snd].
  destruct (decode_realtime (realtime_payload rx) series_count ∅) as [[[]|e] data];
    reflexivity.
Qed.

(** After the block has run to its end, both readers return its keys with
    the two MOS keys added. *)
Lemma bms_read_after_realtime (b b1 b2 : bus Dev) (rx1 : option (list Z))
    (rx : list Z) (series_count : nat) (data : dict) :
  bms_send respond 0x27 0x01 [] b = (Ok rx1, b1) ->
  cell_count rx1 = Ok series_count ->
  bms_send respond 0x00 0x01 [] b1 = (Ok (Some rx), b2) ->
  (20 < length rx)%nat ->
  decode_realtime (realtime_payload rx) series_count ∅ = (Ok tt, data) ->
  exists (discharge charge : string) (b' : bus Dev),
    read_bms_data respond b
    = (Ok (Some (<["bms_charge_mos_status" := VStr charge]>
                 (<["bms_discharge_mos_status" := VStr discharge]> data))), b')
    /\ read_bms_full respond b
       = (Ok (<["bms_charge_mos_status" := VStr charge]>
              (<["bms_discharge_mos_status" := VStr discharge]> data)), b').
Proof.
  intros H1 Hc H2 Hlen Hd.
  pose proof (bms_body_realtime b b1 b2 rx1 rx series_count H1 Hc H2 Hlen) as Hb.
  rewrite Hd in Hb.
  destruct (bms_send_ok_open _ _ _ _ _ _ H2) as (_ & Ho2 & _).
  unfold bind in Hb.
  destruct (mos_status_open 0x2D "bms_discharge_mos_status" b2 data Ho2)
    as (discharge & b3 & E3 & Ho3 & _).
  rewrite E3 in Hb.
  destruct (mos_status_open 0x2E "bms_charge_mos_status" b3
              (<["bms_discharge_mos_status" := VStr discharge]> data) Ho3)
    as (charge & b4 & E4 & _ & _).
  rewrite E4 in Hb.
  exists discharge, charge, b4.
  unfold read_bms_data, read_bms_full. now rewrite Hb.
Qed.

(** When the block raises, [read_bms_data] returns [None] and the MOS
    commands are never sent. *)
Lemma bms_read_realtime_raises (b b1 b2 : bus Dev) (rx1 : option (list Z))
    (rx : list Z) (series_count : nat) (e : pyexn) (data : dict) :
  bms_send respond 0x27 0x01 [] b = (Ok rx1, b1) ->
  cell_count rx1 = Ok series_count ->
  bms_send respond 0x00 0x01 [] b1 = (Ok (Some rx), b2) ->
  (20 < length rx)%nat ->
  decode_realtime (realtime_payload rx) series_count ∅ = (Raise e, data) ->
  read_bms_data respond b = (Ok None, b2)
  /\ read_bms_full respond b = (Ok data, b2).
Proof.
  intros H1 Hc H2 Hlen Hd.
  pose proof (bms_body_realtime b b1 b2 rx1 rx series_count H1 Hc H2 Hlen) as Hb.
  rewrite Hd in Hb.
  unfold read_bms_data, read_bms_full. now rewrite Hb.
Qed.

End BmsRun.

(** ** C1: SOC and SOH *)

(** C1, as stated, fails: for an out-of-range SOC byte the code reports
    the integer 0, which is also what it reports for a battery at 0 %, so
    the value reported is not a sentinel for "unknown". *)
Lemma soc_unknown_reported_as_zero :
  locate_pack (payload_soc 200) 4 cells_13v_decoded = Ok (Some 8%nat)
  /\ locate_pack (payload_soc 0) 4 cells_13v_decoded = Ok (Some 8%nat)
  /\ documented_percent (payload_soc 200 !! (8 + 6)%nat) = UnknownPercent
  /\ documented_percent (payload_soc 0 !! (8 + 6)%nat) = Percent 0
  /\ reported_soc (payload_soc 200) = Some (VInt 0)
  /\ reported_soc (payload_soc 0) = Some (VInt 0).
Proof. repeat split; vm_compute; reflexivity. Qed.

(** C1 (amended): when the locator finds a pack index, the bytes at
    packIndex+6 and packIndex+7 are inside the payload, and the reported
    SOC (SOH) is that byte when it is in [0,100] and the integer 0
    otherwise; on a locator miss SOC and SOH are both reported as 0. *)
Theorem soc_soh_report (d : list Z) (series_count : nat) (cells : list float)
    (data : dict) :
  decode_cells d series_count = Ok cells ->
  (forall p : nat,
     locate_pack d series_count cells = Ok (Some p) ->
     exists (data' : dict) (soc_byte soh_byte s h : Z),
       decode_realtime d series_count data = (Ok tt, data')
       /\ d !! (p + 6)%nat = Some soc_byte
       /\ d !! (p + 7)%nat = Some soh_byte
       /\ data' !! "bms_battery_soc" = Some (VInt s)
       /\ data' !! "bms_battery_soh" = Some (VInt h)
       /\ (0 <= soc_byte <= 100 -> s = soc_byte)
       /\ (~ (0 <= soc_byte <= 100) -> s = 0)
       /\ (0 <= soh_byte <= 100 -> h = soh_byte)
       /\ (~ (0 <= soh_byte <= 100) -> h = 0))
  /\ (locate_pack d series_count cells = Ok None ->
      exists data' : dict,
        decode_realtime d series_count data = (Ok tt, data')
        /\ data' !! "bms_battery_soc" = Some (VInt 0)
        /\ data' !! "bms_battery_soh" = Some (VInt 0)).
Proof.
  intros Hc. split.
  - intros p Hl.
    pose proof (locate_pack_bounds d series_count cells p Hl) as Hp.
    destruct (pack_fields_found d cells p ltac:(lia))
      as (v & i & soc_byte & soh_byte & _ & _ & Hsoc & Hsoh & Hf).
    eexists. exists soc_byte, soh_byte.
    exists (percent_or_zero soc_byte), (percent_or_zero soh_byte).
    split; [exact (decode_realtime_run d series_count data _ _ _ Hc Hl Hf)|].
    split; [done|]. split; [done|].
    split; [lookup_written|]. split; [lookup_written|].
    destruct (percent_or_zero_spec soc_byte), (percent_or_zero_spec soh_byte).
    done.
  - intros Hl. eexists.
    split; [exact (decode_realtime_run d series_count data _ _ _ Hc Hl eq_refl)|].
    split; lookup_written.
Qed.

Lemma soc_soh_report_witness :
  exists (data' : dict) (s h : Z),
    decode_realtime (payload_soc 87) 4 ∅ = (Ok tt, data')
    /\ data' !! "bms_battery_soc" = Some (VInt s)
    /\ data' !! "bms_battery_soh" = Some (VInt h)
    /\ s = 87 /\ h = 99.
Proof.
  assert (Hc : decode_cells (payload_soc 87) 4 = Ok cells_13v_decoded)
    by (vm_compute; reflexivity).
  destruct (soc_soh_report (payload_soc 87) 4 cells_13v_decoded ∅ Hc) as [H _].
  destruct (H 8%nat) as (data' & soc_byte & soh_byte & s & h & Hd & Hb1 & Hb2
                         & Hs & Hh & Hs1 & _ & Hh1 & _).
  - vm_compute. reflexivity.
  - injection Hb1 as <-. injection Hb2 as <-.
    exists data', s, h.
    split; [exact Hd|]. split; [exact Hs|]. split; [exact Hh|].
    split; [apply Hs1; lia | apply Hh1; lia].
Defined.

(** ** C2: cell voltages *)

(** C2, as stated, fails: a truncated reply that passes the checksum and
    the length guard makes the whole BMS read return [None], and no cell
    decodes as 0.0. *)
Lemma truncated_reply_fails_read :
  checksum_ok reply_truncated = true
  /\ (20 < length reply_truncated)%nat
  /\ fst (bms_send scripted 0x00 0x01 []
            (snd (bms_send scripted 0x27 0x01 [] (fresh_bus truncated_script))))
     = Ok (Some reply_truncated)
  /\ fst (read_bms_data scripted (fresh_bus truncated_script)) = Ok None.
Proof. repeat split; vm_compute; reflexivity. Qed.

(** C2 (amended): when the payload holds all 2*seriesCount cell bytes,
    every cell decodes as its little-endian 16-bit value divided by 1000,
    and the four cell keys report the first four cells, 0.0 standing for a
    cell index at or beyond seriesCount; when the payload is truncated
    before that, the decoding raises, [read_bms_data] returns [None]
    ([read_bms_full] an empty reading) and the MOS commands are not sent:
    no cell defaults to 0.0 and no BMS field is produced. *)
Theorem cell_decoding (d : list Z) (series_count : nat) :
  ((2 * series_count <= length d)%nat ->
   exists cells : list float,
     decode_cells d series_count = Ok cells
     /\ length cells = series_count
     /\ (forall k : nat, (k < series_count)%nat ->
           exists lo hi : Z,
             d !! (2 * k)%nat = Some lo /\ d !! (2 * k + 1)%nat = Some hi
             /\ cells !! k
                = Some (PyFloat.round_nd
                          (PyFloat.of_int (Z.lor lo (Z.shiftl hi 8))
                           / PyFloat.of_int 1000) 3))
     /\ (forall (data data' : dict) (r : result unit),
           decode_realtime d series_count data = (r, data') ->
           data' !! "bms_cell_1_voltage" = Some (VFloat (default 0%float (cells !! 0%nat)))
           /\ data' !! "bms_cell_2_voltage" = Some (VFloat (default 0%float (cells !! 1%nat)))
           /\ data' !! "bms_cell_3_voltage" = Some (VFloat (default 0%float (cells !! 2%nat)))
           /\ data' !! "bms_cell_4_voltage" = Some (VFloat (default 0%float (cells !! 3%nat))))
     /\ (forall k : nat, (series_count <= k)%nat -> cells !! k = None))
  /\ ((length d < 2 * series_count)%nat ->
      decode_cells d series_count = Raise IndexError
      /\ (forall data : dict,
            decode_realtime d series_count data = (Raise IndexError, data))
      /\ (forall (Dev : Type) (respond : Dev -> list Z -> Dev * list (list Z))
                 (b b1 b2 : bus Dev) (rx1 : option (list Z)) (rx : list Z),
            bms_send respond 0x27 0x01 [] b = (Ok rx1, b1) ->
            cell_count rx1 = Ok series_count ->
            bms_send respond 0x00 0x01 [] b1 = (Ok (Some rx), b2) ->
            (20 < length rx)%nat ->
            realtime_payload rx = d ->
            read_bms_data respond b = (Ok None, b2)
            /\ read_bms_full respond b = (Ok ∅, b2))).
Proof.
  split.
  - intros Hlen.
    destruct (decode_cells_from_ok d 0 series_count ltac:(lia))
      as (cells & Hc & Hl & Hk).
    exists cells. split; [done|]. split; [done|]. split; [|split].
    + intros k Hlt. now apply Hk.
    + intros data data' r Hd.
      exact (decode_realtime_cell_keys d series_count data cells r data' Hc Hd).
    + intros k Hle. apply lookup_ge_None_2. lia.
  - intros Hlen.
    assert (Hc : decode_cells d series_count = Raise IndexError)
      by (apply decode_cells_from_raise; lia).
    split; [done|]. split.
    + intros data. now apply decode_realtime_raise.
    + intros Dev respond b b1 b2 rx1 rx H1 Hcc H2 Hrx <-.
      apply (bms_read_realtime_raises respond b b1 b2 rx1 rx series_count
               IndexError ∅); try done.
      now apply decode_realtime_raise.
Qed.

Lemma cell_decoding_witness :
  (exists cells : list float,
     decode_cells payload_run20 4 = Ok cells /\ length cells = 4%nat)
  /\ read_bms_data scripted (fresh_bus truncated_script)
     = (Ok None,
        snd (bms_send scripted 0x00 0x01 []
               (snd (bms_send scripted 0x27 0x01 [] (fresh_bus truncated_script))))).
Proof.
  split.
  - destruct (cell_decoding payload_run20 4) as [H _].
    destruct H as (cells & Hc & Hl & _); [simpl; lia|].
    exists cells. split; [exact Hc | exact Hl].
  - destruct (cell_decoding (realtime_payload reply_truncated) 7) as [_ H].
    destruct H as (_ & _ & H); [simpl; lia|].
    apply (H _ scripted (fresh_bus truncated_script)
             (snd (bms_send scripted 0x27 0x01 [] (fresh_bus truncated_script)))
             _ (Some reply_seven_cells) reply_truncated);
      try reflexivity.
    simpl. lia.
Defined.

(** ** C8: MPPT decoder *)

(** A key written under [if reg:] and looked up afterwards. *)
Lemma lookup_if_written {A : Type} (o : option A) (f : A -> pyval)
    (k : string) (data : dict) :
  data !! k = None ->
  match o with Some r => <[k := f r]> data | None => data end !! k = f <$> o.
Proof. intros H. destruct o; cbn; [apply lookup_insert_eq | exact H]. Qed.

Lemma lookup_if_written_ne {A : Type} (o : option A) (f : A -> pyval)
    (k k' : string) (data : dict) :
  k <> k' ->
  match o with Some r => <[k := f r]> data | None => data end !! k'
  = data !! k'.
Proof. intros H. destruct o; [now apply lookup_insert_ne | reflexivity]. Qed.

Lemma derive_power_lookup_ne (kv ki kp k : string) (data : dict) :
  kp <> k -> derive_power kv ki kp data !! k = data !! k.
Proof.
  intros H. unfold derive_power.
  destruct (data !! kv) as [[| v | |]|]; try reflexivity.
  destruct (data !! ki) as [[| i | |]|]; try reflexivity.
  now apply lookup_insert_ne.
Qed.

Lemma derive_power_lookup (kv ki kp : string) (data : dict) :
  data !! kp = None -> kp <> kv -> kp <> ki ->
  derive_power kv ki kp data !! kp
  = match derive_power kv ki kp data !! kv, derive_power kv ki kp data !! ki with
    | Some (VFloat v), Some (VFloat i) =>
        Some (VFloat (PyFloat.round_nd (v * i) 2))
    | _, _ => None
    end.
Proof.
  intros Hp Hv Hi.
  rewrite (derive_power_lookup_ne kv ki kp kv) by exact Hv.
  rewrite (derive_power_lookup_ne kv ki kp ki) by exact Hi.
  unfold derive_power.
  destruct (data !! kv) as [[| v | |]|]; try exact Hp.
  destruct (data !! ki) as [[| i | |]|]; try exact Hp.
  apply lookup_insert_eq.
Qed.

(** Looking a key up through the conditional writes of a decoder. *)
Ltac peel_writes :=
  repeat first
    [ rewrite derive_power_lookup_ne by (intros [=])
    | rewrite lookup_if_written_ne by (intros [=]) ];
  first [ rewrite lookup_if_written by (peel_writes; apply lookup_empty)
        | apply lookup_empty
        | idtac ].

(** C8: each MPPT field is its register divided by 100 (rounded to 2
    decimals), except SOC, which is the raw register; a raw battery current
    above 32767 has 65536 subtracted first; each derived power is voltage
    times current rounded to 2 decimals; registers 1960 and 578 give
    19.60 V, 5.78 A and 113.29 W. *)
Theorem mppt_decoding :
  (forall (Dev : Type) (respond : Dev -> list Z -> Dev * list (list Z))
          (b : bus Dev),
     exists (pv_voltage_reg pv_current_reg battery_soc_reg battery_voltage_reg
             battery_current_reg : rr_result)
            (b1 b2 b3 b4 b5 : bus Dev) (data : dict),
       read_registers respond 0x01 0x304E 1 0x04 b = (Ok pv_voltage_reg, b1)
       /\ read_registers respond 0x01 0x304F 1 0x04 b1 = (Ok pv_current_reg, b2)
       /\ read_registers respond 0x01 0x3045 1 0x04 b2 = (Ok battery_soc_reg, b3)
       /\ read_registers respond 0x01 0x3046 1 0x04 b3 = (Ok battery_voltage_reg, b4)
       /\ read_registers respond 0x01 0x3047 1 0x04 b4 = (Ok battery_current_reg, b5)
       /\ read_mppt_data respond b = (Ok (nonempty data), b5)
       /\ data !! "mppt_pv_voltage"
          = (fun r => VFloat (PyFloat.round_nd (PyFloat.of_int r / PyFloat.of_int 100) 2))
              <$> first_reg pv_voltage_reg
       /\ data !! "mppt_pv_current"
          = (fun r => VFloat (PyFloat.round_nd (PyFloat.of_int r / PyFloat.of_int 100) 2))
              <$> first_reg pv_current_reg
       /\ data !! "mppt_battery_soc" = VInt <$> first_reg battery_soc_reg
       /\ data !! "mppt_battery_voltage"
          = (fun r => VFloat (PyFloat.round_nd (PyFloat.of_int r / PyFloat.of_int 100) 2))
              <$> first_reg battery_voltage_reg
       /\ data !! "mppt_battery_current"
          = (fun raw =>
               VFloat (PyFloat.round_nd
                         (PyFloat.of_int (if 32767 <? raw then raw - 65536 else raw)
                          / PyFloat.of_int 100) 2))
              <$> first_reg battery_current_reg
       /\ data !! "mppt_pv_power"
          = match data !! "mppt_pv_voltage", data !! "mppt_pv_current" with
            | Some (VFloat v), Some (VFloat i) =>
                Some (VFloat (PyFloat.round_nd (v * i) 2))
            | _, _ => None
            end
       /\ data !! "mppt_battery_power"
          = match data !! "mppt_battery_voltage", data !! "mppt_battery_current" with
            | Some (VFloat v), Some (VFloat i) =>
                Some (VFloat (PyFloat.round_nd (v * i) 2))
            | _, _ => None
            end)
  /\ fst (read_mppt_data scripted (fresh_bus mppt_pv_script))
     = Ok (Some (<["mppt_pv_voltage" := VFloat 19.60]>
                 (<["mppt_pv_current" := VFloat 5.78]>
                  (<["mppt_pv_power" := VFloat 113.29]> ∅)))).
Proof.
  split.
  - intros Dev respond b.
    destruct (read_registers_total respond 0x01 0x304E 1 0x04 b)
      as (r1 & b1 & E1 & _).
    destruct (read_registers_total respond 0x01 0x304F 1 0x04 b1)
      as (r2 & b2 & E2 & _).
    destruct (read_registers_total respond 0x01 0x3045 1 0x04 b2)
      as (r3 & b3 & E3 & _).
    destruct (read_registers_total respond 0x01 0x3046 1 0x04 b3)
      as (r4 & b4 & E4 & _).
    destruct (read_registers_total respond 0x01 0x3047 1 0x04 b4)
      as (r5 & b5 & E5 & _).
    exists r1, r2, r3, r4, r5, b1, b2, b3, b4, b5. eexists.
    do 5 (split; [eassumption|]).
    split.
    { unfold read_mppt_data, bind. rewrite E1, E2, E3, E4, E5. reflexivity. }
    unfold centis, signed16.
    split; [now peel_writes|]. split; [now peel_writes|].
    split; [now peel_writes|]. split; [now peel_writes|].
    split; [now peel_writes|].
    split.
    + rewrite derive_power_lookup_ne by (intros [=]).
      rewrite derive_power_lookup; [ | now peel_writes | intros [=] | intros [=] ].
      now rewrite !(derive_power_lookup_ne "mppt_battery_voltage") by (intros [=]).
    + apply derive_power_lookup; [ | intros [=] | intros [=] ].
      now peel_writes.
  - vm_compute. reflexivity.
Qed.

(** ** Poll orchestrator *)

Lemma update_contribution (results : dict) (x_data : option dict) :
  update results x_data = contribution x_data ∪ results.
Proof.
  unfold update, contribution. destruct x_data as [x|]; cbn.
  - destruct (decide (x = ∅)) as [->|]; [|done]. now rewrite (left_id_L ∅ (∪)).
  - now rewrite (left_id_L ∅ (∪)).
Qed.

Section Cycle.
Context {Dev : Type}.
Variable respond : Dev -> list Z -> Dev * list (list Z).

Ltac next_read E O T :=
  match goal with
  | |- context [read_registers respond ?s ?a ?c ?f ?b] =>
      let r := fresh "r" in
      let b' := fresh "b" in
      destruct (read_registers_total respond s a c f b) as (r & b' & E & O & T);
      rewrite E
  end.

Lemma read_mppt_data_total (b : bus Dev) :
  exists (r : option dict) (b' : bus Dev),
    read_mppt_data respond b = (Ok r, b')
    /\ is_open b' = is_open b
    /\ tx_log b' = tx_log b ++ (if is_open b then mppt_requests else []).
Proof.
  unfold read_mppt_data, bind.
  next_read E1 O1 T1. next_read E2 O2 T2. next_read E3 O3 T3.
  next_read E4 O4 T4. next_read E5 O5 T5.
  unfold ret. do 2 eexists. split; [reflexivity|].
  split; [congruence|].
  rewrite T5, T4, T3, T2, T1, O4, O3, O2, O1.
  destruct (is_open b); [|now rewrite !app_nil_r].
  now rewrite <- !app_assoc.
Qed.

Lemma read_env_data_total (b : bus Dev) :
  exists (r : option dict) (b' : bus Dev),
    read_env_data respond b = (Ok r, b')
    /\ is_open b' = is_open b
    /\ tx_log b' = tx_log b ++ (if is_open b then env_requests else []).
Proof.
  unfold read_env_data, bind.
  next_read E1 O1 T1. next_read E2 O2 T2. next_read E3 O3 T3.
  unfold ret. do 2 eexists. split; [reflexivity|].
  split; [congruence|].
  rewrite T3, T2, T1, O2, O1.
  destruct (is_open b); [|now rewrite !app_nil_r].
  now rewrite <- !app_assoc.
Qed.

Lemma read_ldr_data_total (b : bus Dev) :
  exists (r : option dict) (b' : bus Dev),
    read_ldr_data respond b = (Ok r, b')
    /\ is_open b' = is_open b
    /\ tx_log b' = tx_log b ++ (if is_open b then ldr_requests else []).
Proof.
  unfold read_ldr_data, bind.
  next_read E1 O1 T1.
  unfold ret. do 2 eexists. split; [reflexivity|]. split; [done|].
  rewrite T1. now destruct (is_open b).
Qed.

Lemma read_pir_data_total (b : bus Dev) :
  exists (r : option dict) (b' : bus Dev),
    read_pir_data respond b = (Ok r, b')
    /\ is_open b' = is_open b
    /\ tx_log b' = tx_log b ++ (if is_open b then pir_requests else []).
Proof.
  unfold read_pir_data, bind.
  next_read E1 O1 T1.
  unfold ret. do 2 eexists. split; [reflexivity|]. split; [done|].
  rewrite T1. now destruct (is_open b).
Qed.

End Cycle.

Section BmsCycle.
Context {Dev : Type}.
Variable respond : Dev -> list Z -> Dev * list (list Z).

Lemma mos_loop_open (b : bus Dev) (data : dict) :
  is_open b = true ->
  exists (discharge charge : string) (b' : bus Dev),
    (mos_status respond 0x2D "bms_discharge_mos_status" ;;
     mos_status respond 0x2E "bms_charge_mos_status") (b, data)
    = (Ok tt,
       (b', <["bms_charge_mos_status" := VStr charge]>
              (<["bms_discharge_mos_status" := VStr discharge]> data)))
    /\ is_open b' = true
    /\ tx_log b'
       = tx_log b ++ [bms_frame 0x2D 0x01 []; bms_frame 0x2E 0x01 []].
Proof.
  intros Hopen. unfold bind.
  destruct (mos_status_open respond 0x2D "bms_discharge_mos_status" b data Hopen)
    as (discharge & b1 & -> & O1 & T1).
  destruct (mos_status_open respond 0x2E "bms_charge_mos_status" b1
              (<["bms_discharge_mos_status" := VStr discharge]> data) O1)
    as (charge & b2 & -> & O2 & T2).
  exists discharge, charge, b2. split; [done|]. split; [done|].
  rewrite T2, T1. now rewrite <- app_assoc.
Qed.

(** A BMS read always returns. On an open port it sends command 0x27 and
    then either stops on an exception (after 0x27 or after 0x00, returning
    [None]) or sends all four commands and returns a reading that holds
    both MOS keys. *)
Lemma read_bms_data_total (b : bus Dev) :
  exists (r : option dict) (b' : bus Dev) (frames : list (list Z)),
    read_bms_data respond b = (Ok r, b')
    /\ is_open b' = is_open b
    /\ tx_log b' = tx_log b ++ frames
    /\ (is_open b = false -> r = None /\ frames = [])
    /\ (is_open b = true ->
        (r = None
         /\ (frames = take 1 bms_requests \/ frames = take 2 bms_requests))
        \/ (exists (data : dict) (discharge charge : string),
              r = Some data /\ frames = bms_requests
              /\ data !! "bms_discharge_mos_status" = Some (VStr discharge)
              /\ data !! "bms_charge_mos_status" = Some (VStr charge))).
Proof.
  destruct (is_open b) eqn:Hopen.
  2:{ exists None, b, []. unfold read_bms_data, bms_body, bind, on_bus.
      cbn [fst snd]. rewrite bms_send_closed by done.
      rewrite app_nil_r. repeat split; done. }
  destruct (bms_send_open respond 0x27 0x01 [] b Hopen)
    as (rx1 & b1 & E1 & O1 & T1).
  unfold read_bms_data, bms_body.
  unfold bind at 1. unfold on_bus at 1. cbn [fst snd]. rewrite E1.
  unfold bind at 1. unfold lift at 1.
  destruct (cell_count rx1) as [series_count|e].
  2:{ exists None, b1, (take 1 bms_requests).
      split; [done|]. split; [done|]. split; [done|].
      split; [done|]. intros _. left. split; [done|]. now left. }
  destruct (bms_send_open respond 0x00 0x01 [] b1 O1)
    as (rx & b2 & E2 & O2 & T2).
  unfold bind at 1. unfold on_bus at 1. cbn [fst snd]. rewrite E2.
  unfold bind at 1.
  assert (Hraise : exists (r : option dict) (b' : bus Dev) (frames : list (list Z)),
             (Ok None, b2) = (Ok r, b')
             /\ is_open b' = true
             /\ tx_log b' = tx_log b ++ frames
             /\ (true = false -> r = None /\ frames = [])
             /\ (true = true ->
                 (r = None
                  /\ (frames = take 1 bms_requests
                      \/ frames = take 2 bms_requests))
                 \/ (exists (data : dict) (discharge charge : string),
                       r = Some data /\ frames = bms_requests
                       /\ data !! "bms_discharge_mos_status" = Some (VStr discharge)
                       /\ data !! "bms_charge_mos_status" = Some (VStr charge)))).
  { exists None, b2, (take 2 bms_requests).
    split; [done|]. split; [done|].
    split; [rewrite T2, T1; now rewrite <- app_assoc|].
    split; [done|]. intros _. left. split; [done|]. now right. }
  assert (Hrun : forall data : dict,
             exists (r : option dict) (b' : bus Dev) (frames : list (list Z)),
               match
                 (mos_status respond 0x2D "bms_discharge_mos_status" ;;
                  mos_status respond 0x2E "bms_charge_mos_status") (b2, data)
               with
               | (Ok _, (b', data)) => (Ok (Some data), b')
               | (Raise _, (b', _)) => (Ok None, b')
               end = (Ok r, b')
               /\ is_open b' = true
               /\ tx_log b' = tx_log b ++ frames
               /\ (true = false -> r = None /\ frames = [])
               /\ (true = true ->
                   (r = None
                    /\ (frames = take 1 bms_requests
                        \/ frames = take 2 bms_requests))
                   \/ (exists (data : dict) (discharge charge : string),
                         r = Some data /\ frames = bms_requests
                         /\ data !! "bms_discharge_mos_status" = Some (VStr discharge)
                         /\ data !! "bms_charge_mos_status" = Some (VStr charge)))).
  { intros data.
    destruct (mos_loop_open b2 data O2) as (discharge & charge & b3 & -> & O3 & T3).
    eexists _, b3, bms_requests.
    split; [done|]. split; [done|].
    split; [rewrite T3, T2, T1; now rewrite <- !app_assoc|].
    split; [done|]. intros _. right.
    exists (<["bms_charge_mos_status" := VStr charge]>
              (<["bms_discharge_mos_status" := VStr discharge]> data)),
      discharge, charge.
    split; [done|]. split; [done|].
    split; [|apply lookup_insert_eq].
    rewrite lookup_insert_ne by (intros [=]). apply lookup_insert_eq. }
  destruct rx as [rx|]; [destruct (20 <? length rx)%nat|].
  - unfold on_data. cbn [fst snd].
    destruct (decode_realtime (realtime_payload rx) series_count ∅)
      as [[[]|e] data]; [apply Hrun | apply Hraise].
  - unfold ret at 1. apply Hrun.
  - unfold ret at 1. apply Hrun.
Qed.

Lemma mos_state_cases (rx : option (list Z)) :
  (rx = None -> mos_state rx = "UNKNOWN")
  /\ (forall r : list Z,
        rx = Some r -> (length r < 8)%nat -> mos_state rx = "UNKNOWN")
  /\ (forall r : list Z,
        rx = Some r -> (8 <= length r)%nat -> r !! 7%nat = Some 1 ->
        mos_state rx = "ON")
  /\ (forall r : list Z,
        rx = Some r -> (8 <= length r)%nat -> r !! 7%nat <> Some 1 ->
        mos_state rx = "OFF").
Proof.
  split; [now intros ->|]. split; [|split].
  - intros r -> Hlen. unfold mos_state.
    destruct (Nat.leb_spec 8 (length r)); [lia | reflexivity].
  - intros r -> Hlen H7. unfold mos_state.
    destruct (Nat.leb_spec 8 (length r)); [|lia].
    now rewrite bool_decide_eq_true_2.
  - intros r -> Hlen H7. unfold mos_state.
    destruct (Nat.leb_spec 8 (length r)); [|lia].
    now rewrite bool_decide_eq_false_2.
Qed.

(** One iteration of the MOS loop on an open port: the key is written with
    the state that the reply to this command decides. *)
Lemma mos_status_value (cmd : Z) (key : string) (b : bus Dev) (data : dict) :
  is_open b = true ->
  exists (rx : option (list Z)) (b' : bus Dev),
    bms_send respond cmd 0x01 [] b = (Ok rx, b')
    /\ mos_status respond cmd key (b, data)
       = (Ok tt, (b', <[key := VStr (mos_state rx)]> data))
    /\ is_open b' = true.
Proof.
  intros Hopen.
  destruct (bms_send_open respond cmd 0x01 [] b Hopen) as (rx & b' & E & Ho & _).
  exists rx, b'. split; [exact E|]. split; [|exact Ho].
  unfold mos_status, bind, on_bus, on_data, set_item. cbn [fst snd].
  rewrite E. unfold mos_state.
  destruct rx as [r|]; [|reflexivity].
  destruct (8 <=? length r)%nat eqn:Hlen; cbn [fst snd]; [|reflexivity].
  apply Nat.leb_le in Hlen.
  destruct (lookup_lt_is_Some_2 r 7 ltac:(lia)) as [x Hx].
  rewrite Hx. cbn [default]. unfold id.
  destruct (Z.eqb_spec x 1) as [->|Hne].
  - now rewrite bool_decide_eq_true_2.
  - rewrite bool_decide_eq_false_2; [reflexivity|]. intros [= ->]. done.
Qed.

(** A BMS read that returns a reading has sent the four commands in order,
    and its two MOS keys are decided by the replies to 0x2D and 0x2E. *)
Lemma read_bms_data_mos (b b' : bus Dev) (data : dict) :
  read_bms_data respond b = (Ok (Some data), b') ->
  exists (s1 s2 s3 : bus Dev) (rx27 rx00 rxd rxc : option (list Z)),
    bms_send respond 0x27 0x01 [] b = (Ok rx27, s1)
    /\ bms_send respond 0x00 0x01 [] s1 = (Ok rx00, s2)
    /\ bms_send respond 0x2D 0x01 [] s2 = (Ok rxd, s3)
    /\ bms_send respond 0x2E 0x01 [] s3 = (Ok rxc, b')
    /\ data !! "bms_discharge_mos_status" = Some (VStr (mos_state rxd))
    /\ data !! "bms_charge_mos_status" = Some (VStr (mos_state rxc)).
Proof.
  intros H.
  destruct (is_open b) eqn:Hopen.
  2:{ unfold read_bms_data, bms_body, bind, on_bus in H. cbn [fst snd] in H.
      rewrite bms_send_closed in H by done. discriminate. }
  destruct (bms_send_open respond 0x27 0x01 [] b Hopen)
    as (rx27 & s1 & E1 & O1 & _).
  unfold read_bms_data, bms_body in H.
  unfold bind at 1 in H. unfold on_bus at 1 in H. cbn [fst snd] in H.
  rewrite E1 in H. unfold bind at 1 in H. unfold lift at 1 in H.
  destruct (cell_count rx27) as [series_count|e]; [|discriminate].
  destruct (bms_send_open respond 0x00 0x01 [] s1 O1)
    as (rx00 & s2 & E2 & O2 & _).
  unfold bind at 1 in H. unfold on_bus at 1 in H. cbn [fst snd] in H.
  rewrite E2 in H. unfold bind at 1 in H.
  assert (Hrun : forall data0 : dict,
            match
              (mos_status respond 0x2D "bms_discharge_mos_status" ;;
               mos_status respond 0x2E "bms_charge_mos_status") (s2, data0)
            with
            | (Ok _, (b'', data'')) => (Ok (Some data''), b'')
            | (Raise _, (b'', _)) => (Ok None, b'')
            end = (Ok (Some data), b') ->
            exists (s3 : bus Dev) (rxd rxc : option (list Z)),
              bms_send respond 0x2D 0x01 [] s2 = (Ok rxd, s3)
              /\ bms_send respond 0x2E 0x01 [] s3 = (Ok rxc, b')
              /\ data !! "bms_discharge_mos_status" = Some (VStr (mos_state rxd))
              /\ data !! "bms_charge_mos_status" = Some (VStr (mos_state rxc))).
  { intros data0. unfold bind.
    destruct (mos_status_value 0x2D "bms_discharge_mos_status" s2 data0 O2)
      as (rxd & s3 & Ed & -> & O3).
    destruct (mos_status_value 0x2E "bms_charge_mos_status" s3
                (<["bms_discharge_mos_status" := VStr (mos_state rxd)]> data0) O3)
      as (rxc & s4 & Ec & -> & _).
    intros [= <- <-]. exists s3, rxd, rxc.
    split; [exact Ed|]. split; [exact Ec|].
    split; [|apply lookup_insert_eq].
    rewrite lookup_insert_ne by (intros [=]). apply lookup_insert_eq. }
  assert (Hdone : exists (s3 : bus Dev) (rxd rxc : option (list Z)),
            bms_send respond 0x2D 0x01 [] s2 = (Ok rxd, s3)
            /\ bms_send respond 0x2E 0x01 [] s3 = (Ok rxc, b')
            /\ data !! "bms_discharge_mos_status" = Some (VStr (mos_state rxd))
            /\ data !! "bms_charge_mos_status" = Some (VStr (mos_state rxc))).
  { destruct rx00 as [rx|]; [destruct (20 <? length rx)%nat|].
    - unfold on_data in H. cbn [fst snd] in H.
      destruct (decode_realtime (realtime_payload rx) series_count ∅)
        as [[[]|e] data0]; [exact (Hrun data0 H) | discriminate].
    - unfold ret at 1 in H. exact (Hrun ∅ H).
    - unfold ret at 1 in H. exact (Hrun ∅ H). }
  destruct Hdone as (s3 & rxd & rxc & Ed & Ec & Hd & Hc).
  exists s1, s2, s3, rx27, rx00, rxd, rxc. repeat split; assumption.
Qed.

(** A device that sends nothing makes the exchange return [None]. *)
Lemma bms_send_no_reply (cmd : Z) (b : bus Dev) :
  is_open b = true ->
  snd (respond (device b) (bms_frame cmd 0x01 [])) = [] ->
  fst (bms_send respond cmd 0x01 [] b) = Ok None.
Proof.
  intros Hopen Hsilent.
  unfold bms_send, bind, reset_input_buffer, reset_output_buffer, serial_write.
  rewrite Hopen. cbn [is_open device tx_log rx_pending].
  destruct (respond (device b) (bms_frame cmd 0x01 [])) as [dev' bursts].
  cbn [snd] in Hsilent. subst bursts. reflexivity.
Qed.

End BmsCycle.

Section Orchestrator.
Context {Dev : Type}.
Variable respond : Dev -> list Z -> Dev * list (list Z).

(** The aggregate of a cycle, from what the five readers returned. *)
Lemma read_all_devices_steps (b b1 b2 b3 b4 b5 : bus Dev)
    (mppt env ldr bms pir : option dict) :
  read_mppt_data respond b = (Ok mppt, b1) ->
  read_env_data respond b1 = (Ok env, b2) ->
  read_ldr_data respond b2 = (Ok ldr, b3) ->
  read_bms_data respond b3 = (Ok bms, b4) ->
  read_pir_data respond b4 = (Ok pir, b5) ->
  read_all_devices respond b
  = (Ok (contribution pir ∪ (contribution bms ∪ (contribution ldr
          ∪ (contribution env ∪ contribution mppt)))), b5).
Proof.
  intros E1 E2 E3 E4 E5. unfold read_all_devices, bind.
  rewrite E1, E2, E3, E4, E5. unfold ret.
  rewrite !update_contribution. now rewrite (right_id_L ∅ (∪)).
Qed.

(** The PIR reading holds at most the key [pir_motion_detected]. *)
Lemma read_pir_data_keys (b b' : bus Dev) (pir : option dict) (k : string) :
  read_pir_data respond b = (Ok pir, b') ->
  k <> "pir_motion_detected" -> contribution pir !! k = None.
Proof.
  unfold read_pir_data, bind. intros H Hk.
  destruct (read_registers_total respond 0x02 0x0000 1 0x03 b)
    as (r & b1 & E & _).
  rewrite E in H. unfold ret in H. injection H as <- <-.
  unfold nonempty, contribution.
  destruct (first_reg r); case_decide; cbn; try apply lookup_empty.
  now apply lookup_insert_None.
Qed.

End Orchestrator.

(** With no reply to any frame, a BMS exchange returns [None]. *)
Lemma bms_send_silent (cmd : Z) (log : list (list Z)) :
  fst (bms_send scripted cmd 0x01 [] (Bus [] true log [])) = Ok None.
Proof. reflexivity. Qed.

(** C9, as stated, fails for the BMS: on a bus where no device answers
    anything, every BMS exchange fails, and the aggregate still holds the
    two MOS keys of the BMS. *)
Lemma silent_bms_contributes_keys :
  (forall (cmd : Z) (log : list (list Z)),
     fst (bms_send scripted cmd 0x01 [] (Bus [] true log [])) = Ok None)
  /\ fst (read_bms_data scripted (Bus [] true (mppt_requests ++ env_requests ++ ldr_requests) []))
     = Ok (Some (<["bms_discharge_mos_status" := VStr "UNKNOWN"]>
                 (<["bms_charge_mos_status" := VStr "UNKNOWN"]> ∅)))
  /\ fst (read_all_devices scripted (fresh_bus []))
     = Ok (<["bms_discharge_mos_status" := VStr "UNKNOWN"]>
           (<["bms_charge_mos_status" := VStr "UNKNOWN"]> ∅)).
Proof.
  split; [exact bms_send_silent|]. split; vm_compute; reflexivity.
Qed.

(** C9 (amended): one poll cycle runs the readers in the order MPPT, ENV,
    LDR, BMS, PIR, whatever each of them returns, and never raises; on an
    open port the frames written are the 5 MPPT, 3 ENV and 1 LDR requests,
    then the BMS commands 0x27, 0x00, 0x2D, 0x2E in that order (only 0x27,
    or only 0x27 and 0x00, when the BMS read stops on an exception and
    returns [None]), then the PIR request; the aggregate is the union of
    the readings returned, a reader that returns [None] adding nothing, so
    every entry of the aggregate is an entry of a returned reading; a BMS
    reading, when one is returned, always holds the two MOS keys, each
    decided by the reply to its own command: "UNKNOWN" when the exchange
    returned no reply (as it does when the BMS sends nothing) or a reply
    shorter than 8 bytes, "ON" when byte 7 of the reply is 1, "OFF"
    otherwise. *)
Theorem poll_cycle (Dev : Type) (respond : Dev -> list Z -> Dev * list (list Z))
    (b : bus Dev) :
  exists (mppt env ldr bms pir : option dict) (b1 b2 b3 b4 b5 : bus Dev)
         (bms_frames : list (list Z)),
    read_mppt_data respond b = (Ok mppt, b1)
    /\ read_env_data respond b1 = (Ok env, b2)
    /\ read_ldr_data respond b2 = (Ok ldr, b3)
    /\ read_bms_data respond b3 = (Ok bms, b4)
    /\ read_pir_data respond b4 = (Ok pir, b5)
    /\ read_all_devices respond b
       = (Ok (contribution pir ∪ (contribution bms ∪ (contribution ldr
               ∪ (contribution env ∪ contribution mppt)))), b5)
    /\ contribution None = ∅
    /\ (forall (results : dict) (k : string) (v : pyval),
          fst (read_all_devices respond b) = Ok results ->
          results !! k = Some v ->
          exists (reading : dict),
            reading !! k = Some v
            /\ (mppt = Some reading \/ env = Some reading \/ ldr = Some reading
                \/ bms = Some reading \/ pir = Some reading))
    /\ (is_open b = true ->
        tx_log b5
        = tx_log b ++ mppt_requests ++ env_requests ++ ldr_requests
          ++ bms_frames ++ pir_requests
        /\ (bms_frames = bms_requests
            \/ (bms = None
                /\ (bms_frames = take 1 bms_requests
                    \/ bms_frames = take 2 bms_requests))))
    /\ (forall data : dict,
          bms = Some data ->
          bms_frames = bms_requests
          /\ exists (s1 s2 s3 : bus Dev)
                    (rx27 rx00 discharge_rx charge_rx : option (list Z))
                    (discharge charge : string),
               bms_send respond 0x27 0x01 [] b3 = (Ok rx27, s1)
               /\ bms_send respond 0x00 0x01 [] s1 = (Ok rx00, s2)
               /\ bms_send respond 0x2D 0x01 [] s2 = (Ok discharge_rx, s3)
               /\ bms_send respond 0x2E 0x01 [] s3 = (Ok charge_rx, b4)
               /\ data !! "bms_discharge_mos_status" = Some (VStr discharge)
               /\ data !! "bms_charge_mos_status" = Some (VStr charge)
               /\ ((discharge_rx = None -> discharge = "UNKNOWN")
                   /\ (forall r : list Z,
                         discharge_rx = Some r -> (length r < 8)%nat ->
                         discharge = "UNKNOWN")
                   /\ (forall r : list Z,
                         discharge_rx = Some r -> (8 <= length r)%nat ->
                         r !! 7%nat = Some 1 -> discharge = "ON")
                   /\ (forall r : list Z,
                         discharge_rx = Some r -> (8 <= length r)%nat ->
                         r !! 7%nat <> Some 1 -> discharge = "OFF"))
               /\ ((charge_rx = None -> charge = "UNKNOWN")
                   /\ (forall r : list Z,
                         charge_rx = Some r -> (length r < 8)%nat ->
                         charge = "UNKNOWN")
                   /\ (forall r : list Z,
                         charge_rx = Some r -> (8 <= length r)%nat ->
                         r !! 7%nat = Some 1 -> charge = "ON")
                   /\ (forall r : list Z,
                         charge_rx = Some r -> (8 <= length r)%nat ->
                         r !! 7%nat <> Some 1 -> charge = "OFF")))
    /\ (forall (cmd : Z) (s : bus Dev),
          is_open s = true ->
          snd (respond (device s) (bms_frame cmd 0x01 [])) = [] ->
          fst (bms_send respond cmd 0x01 [] s) = Ok None).
Proof.
  destruct (read_mppt_data_total respond b) as (mppt & b1 & E1 & O1 & T1).
  destruct (read_env_data_total respond b1) as (env & b2 & E2 & O2 & T2).
  destruct (read_ldr_data_total respond b2) as (ldr & b3 & E3 & O3 & T3).
  destruct (read_bms_data_total respond b3)
    as (bms & b4 & frames & E4 & O4 & T4 & Hclosed & Hopen).
  destruct (read_pir_data_total respond b4) as (pir & b5 & E5 & O5 & T5).
  pose proof (read_all_devices_steps respond b b1 b2 b3 b4 b5 _ _ _ _ _
                E1 E2 E3 E4 E5) as Hall.
  exists mppt, env, ldr, bms, pir, b1, b2, b3, b4, b5, frames.
  do 5 (split; [assumption|]). split; [exact Hall|]. split; [reflexivity|].
  split; [|split; [|split]].
  - intros results k v Hres Hk. rewrite Hall in Hres. injection Hres as <-.
    unfold contribution in Hk.
    repeat (apply lookup_union_Some_raw in Hk as [Hk|[_ Hk]]).
    + destruct pir as [reading|]; [eauto 10 | discriminate Hk].
    + destruct bms as [reading|]; [eauto 10 | discriminate Hk].
    + destruct ldr as [reading|]; [eauto 10 | discriminate Hk].
    + destruct env as [reading|]; [eauto 10 | discriminate Hk].
    + destruct mppt as [reading|]; [eauto 10 | discriminate Hk].
  - intros Hb. rewrite Hb in *.
    rewrite T5, T4, T3, T2, T1, O4, O3, O2, O1. cbn [is_open].
    split; [now rewrite <- !app_assoc|].
    destruct (Hopen ltac:(congruence)) as [[-> Hf]|(data & dc & ch & _ & -> & _)];
      [right | left]; done.
  - intros data ->. split.
    + destruct (is_open b) eqn:Hb.
      * destruct (Hopen ltac:(congruence))
          as [[Hn _]|(data' & dc & ch & _ & -> & _)]; [discriminate | done].
      * destruct (Hclosed ltac:(congruence)) as [Hn _]. discriminate.
    + destruct (read_bms_data_mos respond b3 b4 data E4)
        as (s1 & s2 & s3 & rx27 & rx00 & rxd & rxc & A1 & A2 & A3 & A4 & Hd & Hc).
      exists s1, s2, s3, rx27, rx00, rxd, rxc, (mos_state rxd), (mos_state rxc).
      do 6 (split; [assumption|]).
      split; apply mos_state_cases.
  - exact (bms_send_no_reply respond).
Qed.

(** ** C5: locator miss *)

(** C5: on a locator miss the block still runs to its end: pack voltage is
    the sum of the decoded cells rounded to 2 decimals, pack current is
    0.0 and pack power is voltage times current rounded to 2 decimals;
    both BMS readers return that reading, and a poll cycle that reaches
    this BMS read returns an aggregate holding it. *)
Theorem locator_miss_fallback (d : list Z) (series_count : nat)
    (cells : list float) :
  decode_cells d series_count = Ok cells ->
  locate_pack d series_count cells = Ok None ->
  (forall data : dict,
     exists data' : dict,
       decode_realtime d series_count data = (Ok tt, data')
       /\ data' !! "bms_battery_voltage"
          = Some (VFloat (PyFloat.round_nd (PyFloat.sum cells) 2))
       /\ data' !! "bms_battery_current" = Some (VFloat 0)
       /\ data' !! "bms_battery_power"
          = Some (VFloat (PyFloat.round_nd
                            (PyFloat.round_nd (PyFloat.sum cells) 2 * 0) 2)))
  /\ (forall (Dev : Type) (respond : Dev -> list Z -> Dev * list (list Z))
             (b b1 b2 : bus Dev) (rx1 : option (list Z)) (rx : list Z),
        bms_send respond 0x27 0x01 [] b = (Ok rx1, b1) ->
        cell_count rx1 = Ok series_count ->
        bms_send respond 0x00 0x01 [] b1 = (Ok (Some rx), b2) ->
        (20 < length rx)%nat ->
        realtime_payload rx = d ->
        exists (bms_data : dict) (b' : bus Dev),
          read_bms_data respond b = (Ok (Some bms_data), b')
          /\ read_bms_full respond b = (Ok bms_data, b')
          /\ bms_data !! "bms_battery_voltage"
             = Some (VFloat (PyFloat.round_nd (PyFloat.sum cells) 2))
          /\ bms_data !! "bms_battery_current" = Some (VFloat 0)
          /\ bms_data !! "bms_battery_power"
             = Some (VFloat (PyFloat.round_nd
                               (PyFloat.round_nd (PyFloat.sum cells) 2 * 0) 2))
          /\ forall (b_start s1 s2 : bus Dev) (mppt env ldr : option dict),
               read_mppt_data respond b_start = (Ok mppt, s1) ->
               read_env_data respond s1 = (Ok env, s2) ->
               read_ldr_data respond s2 = (Ok ldr, b) ->
               exists (results : dict) (b_end : bus Dev),
                 read_all_devices respond b_start = (Ok results, b_end)
                 /\ results !! "bms_battery_voltage"
                    = Some (VFloat (PyFloat.round_nd (PyFloat.sum cells) 2))
                 /\ results !! "bms_battery_current" = Some (VFloat 0)).
Proof.
  intros Hc Hl.
  assert (Hrun : forall data : dict,
            decode_realtime d series_count data
            = (Ok tt, _)) by
    (intros data;
     exact (decode_realtime_run d series_count data cells None _ Hc Hl eq_refl)).
  split.
  - intros data. eexists. split; [apply Hrun|].
    cbn [vpack ipack soc soh]. repeat split; lookup_written.
  - intros Dev respond b b1 b2 rx1 rx H1 Hcc H2 Hlen <-.
    destruct (bms_read_after_realtime respond b b1 b2 rx1 rx series_count _
                H1 Hcc H2 Hlen (Hrun ∅))
      as (discharge & charge & b' & Hread & Hfull).
    eexists. exists b'. split; [exact Hread|]. split; [exact Hfull|].
    cbn [vpack ipack soc soh].
    split; [lookup_written|]. split; [lookup_written|]. split; [lookup_written|].
    intros b_start s1 s2 mppt env ldr E1 E2 E3.
    destruct (read_pir_data_total respond b') as (pir & b_end & E5 & _).
    eexists. exists b_end.
    split; [exact (read_all_devices_steps respond b_start s1 s2 b _ b_end
                     _ _ _ _ _ E1 E2 E3 Hread E5)|].
    split.
    + rewrite lookup_union_r
        by (apply (read_pir_data_keys respond b' b_end pir); [done | intros [=]]).
      apply lookup_union_Some_l. cbn [contribution default]. lookup_written.
    + rewrite lookup_union_r
        by (apply (read_pir_data_keys respond b' b_end pir); [done | intros [=]]).
      apply lookup_union_Some_l. cbn [contribution default]. lookup_written.
Qed.

Lemma locator_miss_fallback_witness :
  (exists data' : dict,
     decode_realtime (payload_planted 1313) 4 ∅ = (Ok tt, data')
     /\ data' !! "bms_battery_voltage"
        = Some (VFloat (PyFloat.round_nd (PyFloat.sum cells_13v_decoded) 2)))
  /\ (exists (bms_data : dict) (b' : bus (list (list (list Z)))),
        read_bms_data scripted (fresh_bus no_marker_script) = (Ok (Some bms_data), b')
        /\ bms_data !! "bms_battery_current" = Some (VFloat 0)).
Proof.
  assert (Hc : decode_cells (payload_planted 1313) 4 = Ok cells_13v_decoded)
    by (vm_compute; reflexivity).
  assert (Hl : locate_pack (payload_planted 1313) 4 cells_13v_decoded = Ok None)
    by (vm_compute; reflexivity).
  destruct (locator_miss_fallback (payload_planted 1313) 4 cells_13v_decoded Hc Hl)
    as [H1 H2].
  split.
  - destruct (H1 ∅) as (data' & Hd & Hv & _).
    exists data'. split; [exact Hd | exact Hv].
  - destruct (H2 _ scripted (fresh_bus no_marker_script)
                (snd (bms_send scripted 0x27 0x01 [] (fresh_bus no_marker_script)))
                (snd (bms_send scripted 0x00 0x01 []
                        (snd (bms_send scripted 0x27 0x01 []
                                (fresh_bus no_marker_script)))))
                (Some reply_four_cells) reply_no_marker)
      as (bms_data & b' & Hread & _ & _ & Hi & _).
    + vm_compute. reflexivity.
    + vm_compute. reflexivity.
    + vm_compute. reflexivity.
    + vm_compute. lia.
    + vm_compute. reflexivity.
    + exists bms_data, b'. split; [exact Hread | exact Hi].
Defined.

Lemma poll_cycle_witness :
  exists (b5 : bus (list (list (list Z)))) (bms_frames : list (list Z)),
    snd (read_all_devices scripted (fresh_bus [])) = b5
    /\ tx_log b5
       = mppt_requests ++ env_requests ++ ldr_requests ++ bms_frames
         ++ pir_requests.
Proof.
  destruct (poll_cycle _ scripted (fresh_bus []))
    as (mppt & env & ldr & bms & pir & b1 & b2 & b3 & b4 & b5 & bms_frames
        & _ & _ & _ & _ & _ & Hall & _ & _ & Htx & _).
  exists b5, bms_frames. split.
  - now rewrite Hall.
  - destruct Htx as [Htx _]; [reflexivity|]. exact Htx.
Defined.
